(** * benchmark.py: AES-GCM vs ChaCha20-Poly1305 file-encryption benchmark

    A shallow embedding of [src/benchmark.py] and the properties of its
    adapters, trial runner, orchestrator and size-label bucketing.

    Conventions of the embedding.
    - [bytes] is [list Byte.byte]; [str] is [string].
    - Effects (file system, random source, clocks, standard output) live in
      a [World] threaded by the monad [Py], which also carries Python
      exceptions ([Raise]).  Every external operation appends one [Event]
      to the world's [trace], so that the order of effects can be stated.
    - The two AEAD primitives of the [cryptography] package, the CSV and
      chart renderers and the float formatter are opaque collaborators:
      they are [Variable]s of the section holding the program.
    - Clock readings are IEEE-754 binary64 values ([PrimFloat.float]), as
      Python's [float].  File sizes in megabytes are rationals: dividing
      an integer below 2^53 by 2^20 and subtracting a small integer
      constant are exact in binary64, so [Q] computes the same
      comparisons as the interpreter does. *)

From Stdlib Require Import Ascii String QArith Qabs Lqa Floats.PrimFloat.
From stdpp Require Import gmap strings list pretty.

Local Open Scope string_scope.
Local Open Scope list_scope.

(** ** Bytes and strings *)

Definition bytes : Type := list Byte.byte.

(** [s.replace(' ', '')] *)
Fixpoint remove_spaces (s : string) : string :=
  match s with
  | EmptyString => EmptyString
  | String c s' =>
      if Ascii.eqb c " "%char then remove_spaces s'
      else String c (remove_spaces s')
  end.

(** [s.split('/')] *)
Fixpoint split_slash (s : string) : list string :=
  match s with
  | EmptyString => [EmptyString]
  | String c s' =>
      if Ascii.eqb c "/"%char then EmptyString :: split_slash s'
      else match split_slash s' with
           | [] => [String c EmptyString]
           | w :: ws => String c w :: ws
           end
  end.

Fixpoint leading_slashes (s : string) : nat :=
  match s with
  | String c s' => if Ascii.eqb c "/"%char then S (leading_slashes s') else 0
  | EmptyString => 0
  end.

(** ** Paths ([pathlib.PurePosixPath]) *)

Module Path.

(** A parsed path: its root (empty, "/" or "//") and its components. *)
Record t := mk { root : string; parts : list string }.

Definition keep_part (c : string) : bool :=
  negb (String.eqb c "") && negb (String.eqb c ".").

(** [Path(s)]: empty and "." components are dropped; exactly two
    leading slashes are kept as the root "//". *)
Definition of_str (s : string) : t :=
  {| root := match leading_slashes s with
             | 0 => ""
             | 2 => "//"
             | _ => "/"
             end;
     parts := filter (fun c => Is_true (keep_part c)) (split_slash s) |}.

(** [str(p)] *)
Definition str (p : t) : string :=
  match root p, parts p with
  | EmptyString, [] => "."
  | r, ps => r +:+ String.concat "/" ps
  end.

(** [p.name]: the last component, or the empty string. *)
Definition name (p : t) : string := List.last (parts p) "".

(** [p.parent] *)
Definition parent (p : t) : t :=
  {| root := root p; parts := removelast (parts p) |}.

(** [p / s] *)
Definition join (p : t) (s : string) : t :=
  let q := of_str s in
  match root q with
  | EmptyString => {| root := root p; parts := parts p ++ parts q |}
  | _ => q
  end.

(** The path and its ancestors, outermost first (the order in which
    [mkdir(parents=True)] creates them). *)
Definition ancestors (p : t) : list t :=
  map (fun k => {| root := root p; parts := take k (parts p) |})
      (seq 1 (length (parts p))).

End Path.

(** ** Size labels (lines 150-165) *)

(** [df["filesize_MB"] = df["filesize_bytes"] / (1024*1024)] *)
Definition filesize_MB (filesize_bytes : Z) : Q :=
  (inject_Z filesize_bytes / inject_Z (1024 * 1024))%Q.

Definition Qltb (x y : Q) : bool := negb (Qle_bool y x).

(** [size_label(row)], on the two columns it reads. *)
Definition size_label (file : string) (filesize_bytes : Z) : string :=
  let size_mb := filesize_MB filesize_bytes in
  if Qltb (Qabs (size_mb - 10)) 1 then "10MB"
  else if Qltb (Qabs (size_mb - 100)) 5 then "100MB"
  else if Qltb (Qabs (size_mb - 500)) 20 then "500MB"
  else if Qltb (Qabs (size_mb - 1024)) 100 then "1GB"
  else Path.name (Path.of_str file).

(** ** Exceptions and outcomes *)

Inductive PyExc : Type :=
  | FileNotFoundError (path : string)
  | IsADirectoryError (path : string)
  | NotADirectoryError (path : string)
  | FileExistsError (path : string)
  | ValueError (msg : string)
  | KeyError (key : string)
  | LibraryError (msg : string)   (* whatever the AEAD primitive raises *)
  | SystemExit (code : Z).

(** [isinstance(e, Exception)]: [SystemExit] derives from
    [BaseException] only, so [except Exception] lets it through. *)
Definition is_Exception (e : PyExc) : bool :=
  match e with
  | SystemExit _ => false
  | _ => true
  end.

(** [str(e)] *)
Definition exc_str (e : PyExc) : string :=
  match e with
  | FileNotFoundError p => "[Errno 2] No such file or directory: '" +:+ p +:+ "'"
  | IsADirectoryError p => "[Errno 21] Is a directory: '" +:+ p +:+ "'"
  | NotADirectoryError p => "[Errno 20] Not a directory: '" +:+ p +:+ "'"
  | FileExistsError p => "[Errno 17] File exists: '" +:+ p +:+ "'"
  | ValueError m => m
  | KeyError k => "'" +:+ k +:+ "'"
  | LibraryError m => m
  | SystemExit c => pretty c
  end.

Inductive Outcome (A : Type) : Type :=
  | Ok (a : A)
  | Raise (e : PyExc).
Arguments Ok {A} a.
Arguments Raise {A} e.

(** ** The world *)

Inductive Node : Type :=
  | File (content : bytes)
  | Dir.

Inductive Algo : Type := AES_GCM | CHACHA20_POLY1305.

(** One entry per external operation, in the order performed. *)
Inductive Event : Type :=
  | EvStat (path : string)
  | EvRead (path : string)
  | EvWrite (path : string) (data : bytes)
  | EvMkdir (path : string)
  | EvRemove (path : string)
  | EvPerfCounter (t : float)
  | EvProcessTime (t : float)
  | EvTime (t : float)
  | EvTokenBytes (bs : bytes)
  | EvNew (a : Algo) (key : bytes)
  | EvEncrypt (a : Algo) (key nonce data : bytes).

(** What the environment will answer: the bytes of the secure random
    source, the successive readings of the three clocks, and the size
    [stat] reports for what a path holds (a call of its own, whose
    answer need not be the number of bytes a read returns). *)
Record Oracle : Type := mkOracle {
  entropy : nat -> Byte.byte;
  perf_counter_at : nat -> float;
  process_time_at : nat -> float;
  time_at : nat -> float;
  st_size_at : string -> Node -> Z
}.

Record World : Type := mkWorld {
  oracle : Oracle;
  fs : gmap string Node;
  drawn : nat;          (* random bytes consumed so far *)
  perf_reads : nat;     (* readings taken of each clock *)
  cpu_reads : nat;
  time_reads : nat;
  stdout : list string;
  trace : list Event
}.

Definition set_fs (f : gmap string Node) (w : World) : World :=
  mkWorld (oracle w) f (drawn w) (perf_reads w) (cpu_reads w) (time_reads w)
          (stdout w) (trace w).
Definition set_drawn (n : nat) (w : World) : World :=
  mkWorld (oracle w) (fs w) n (perf_reads w) (cpu_reads w) (time_reads w)
          (stdout w) (trace w).
Definition set_perf_reads (n : nat) (w : World) : World :=
  mkWorld (oracle w) (fs w) (drawn w) n (cpu_reads w) (time_reads w)
          (stdout w) (trace w).
Definition set_cpu_reads (n : nat) (w : World) : World :=
  mkWorld (oracle w) (fs w) (drawn w) (perf_reads w) n (time_reads w)
          (stdout w) (trace w).
Definition set_time_reads (n : nat) (w : World) : World :=
  mkWorld (oracle w) (fs w) (drawn w) (perf_reads w) (cpu_reads w) n
          (stdout w) (trace w).
Definition emit (s : string) (w : World) : World :=
  mkWorld (oracle w) (fs w) (drawn w) (perf_reads w) (cpu_reads w) (time_reads w)
          (stdout w ++ [s]) (trace w).
Definition log (e : Event) (w : World) : World :=
  mkWorld (oracle w) (fs w) (drawn w) (perf_reads w) (cpu_reads w) (time_reads w)
          (stdout w) (trace w ++ [e]).

(** ** The monad of Python computations *)

Definition Py (A : Type) : Type := World -> Outcome A * World.

Definition ret {A} (a : A) : Py A := fun w => (Ok a, w).

Definition bind {A B} (c : Py A) (k : A -> Py B) : Py B :=
  fun w => match c w with
           | (Ok a, w') => k a w'
           | (Raise e, w') => (Raise e, w')
           end.

Definition raise {A} (e : PyExc) : Py A := fun w => (Raise e, w).

(** [try: c  except Exception as e: h e] *)
Definition try_except {A} (c : Py A) (h : PyExc -> Py A) : Py A :=
  fun w => match c w with
           | (Raise e, w') => if is_Exception e then h e w' else (Raise e, w')
           | r => r
           end.

Declare Scope py_scope.
Delimit Scope py_scope with py.
Notation "x <- c ;; k" := (bind c (fun x => k))
  (at level 100, c at next level, right associativity) : py_scope.
Notation "c ;;; k" := (bind c (fun _ => k))
  (at level 100, right associativity) : py_scope.
Local Open Scope py_scope.

(** [for x in xs: body x] *)
Fixpoint for_each {A} (xs : list A) (body : A -> Py unit) : Py unit :=
  match xs with
  | [] => ret tt
  | x :: xs' => body x ;;; for_each xs' body
  end.

Definition newline : string := String (ascii_of_nat 10) EmptyString.

(** [print(s)] and [print(s, end="", flush=True)] *)
Definition print (s : string) : Py unit := fun w => (Ok tt, emit (s +:+ newline) w).
Definition print_noend (s : string) : Py unit := fun w => (Ok tt, emit s w).

(** [secrets.token_bytes(n)] *)
Definition token_bytes (n : nat) : Py bytes :=
  fun w =>
    let bs := map (entropy (oracle w)) (seq (drawn w) n) in
    (Ok bs, log (EvTokenBytes bs) (set_drawn (drawn w + n) w)).

(** [time.perf_counter()], [time.process_time()], [time.time()] *)
Definition perf_counter : Py float :=
  fun w =>
    let t := perf_counter_at (oracle w) (perf_reads w) in
    (Ok t, log (EvPerfCounter t) (set_perf_reads (S (perf_reads w)) w)).
Definition process_time : Py float :=
  fun w =>
    let t := process_time_at (oracle w) (cpu_reads w) in
    (Ok t, log (EvProcessTime t) (set_cpu_reads (S (cpu_reads w)) w)).
Definition time_time : Py float :=
  fun w =>
    let t := time_at (oracle w) (time_reads w) in
    (Ok t, log (EvTime t) (set_time_reads (S (time_reads w)) w)).

(** *** File system

    The file system is a map from path strings to what they hold.
    Path strings are taken as they are spelled: links and [..] are not
    resolved.  Permissions and device errors are left out: a regular
    file can be read, and an entry of an existing directory written,
    in one step that does not fail. *)

(** The path lies below a regular file: one of the directories it
    names is not a directory. *)
Definition below_file (m : gmap string Node) (p : Path.t) : bool :=
  existsb (fun a => match m !! Path.str a with
                    | Some (File _) => true
                    | _ => false
                    end)
          (Path.ancestors (Path.parent p)).

(** What a system call raises for a path that has no entry: [ENOTDIR]
    below a regular file, [ENOENT] otherwise. *)
Definition no_entry_error (m : gmap string Node) (p : Path.t) (shown : string)
    : PyExc :=
  if below_file m p then NotADirectoryError shown else FileNotFoundError shown.

(** [p.stat().st_size] *)
Definition stat_size (p : Path.t) : Py Z :=
  fun w =>
    let w' := log (EvStat (Path.str p)) w in
    match fs w !! Path.str p with
    | Some node => (Ok (st_size_at (oracle w) (Path.str p) node), w')
    | None => (Raise (no_entry_error (fs w) p (Path.str p)), w')
    end.

(** [p.exists()] *)
Definition exists_ (p : Path.t) : Py bool :=
  fun w =>
    (Ok (bool_decide (is_Some (fs w !! Path.str p))), log (EvStat (Path.str p)) w).

(** [with open(p, "rb") as f: f.read()] *)
Definition read_file (p : Path.t) : Py bytes :=
  fun w =>
    let w' := log (EvRead (Path.str p)) w in
    match fs w !! Path.str p with
    | Some (File c) => (Ok c, w')
    | Some Dir => (Raise (IsADirectoryError (Path.str p)), w')
    | None => (Raise (no_entry_error (fs w) p (Path.str p)), w')
    end.

(** A directory named by a path without components is the working
    directory or the root, which always exist. *)
Definition is_dir (m : gmap string Node) (p : Path.t) : bool :=
  match Path.parts p with
  | [] => true
  | _ => match m !! Path.str p with
         | Some Dir => true
         | _ => false
         end
  end.

(** [with open(p, "wb") as f: f.write(data)]: the file is created or
    truncated; its directory must exist. *)
Definition write_file (p : Path.t) (data : bytes) : Py unit :=
  fun w =>
    let w' := log (EvWrite (Path.str p) data) w in
    match fs w !! Path.str p with
    | Some Dir => (Raise (IsADirectoryError (Path.str p)), w')
    | _ =>
        if is_dir (fs w) (Path.parent p)
        then (Ok tt, set_fs (<[Path.str p := File data]> (fs w)) w')
        else (Raise (no_entry_error (fs w) p (Path.str p)), w')
    end.

(** One level of [mkdir(parents=True, exist_ok=True)]. *)
Definition mkdir_one (final : Path.t) (a : Path.t) : Py unit :=
  fun w =>
    match fs w !! Path.str a with
    | Some Dir => (Ok tt, w)
    | Some (File _) =>
        (Raise (if bool_decide (Path.parts a = Path.parts final)
                then FileExistsError (Path.str a)
                else NotADirectoryError (Path.str final)), w)
    | None => (Ok tt, set_fs (<[Path.str a := Dir]> (fs w)) w)
    end.

(** [p.mkdir(parents=True, exist_ok=True)] *)
Definition mkdir_p (p : Path.t) : Py unit :=
  (fun w => (Ok tt, log (EvMkdir (Path.str p)) w)) ;;;
  for_each (Path.ancestors p) (mkdir_one p).

(** [os.remove(f)] *)
Definition os_remove (f : string) : Py unit :=
  fun w =>
    let w' := log (EvRemove f) w in
    match fs w !! f with
    | Some (File _) => (Ok tt, set_fs (delete f (fs w)) w')
    | Some Dir => (Raise (IsADirectoryError f), w')
    | None => (Raise (no_entry_error (fs w) (Path.of_str f) f), w')
    end.

(** [for x in xs: s = body x s], for a loop that updates a local. *)
Fixpoint fold_for {A S} (xs : list A) (body : A -> S -> Py S) (s : S) : Py S :=
  match xs with
  | [] => ret s
  | x :: xs' => s' <- body x s ;; fold_for xs' body s'
  end.

(** [range(1, n + 1)] *)
Definition range1 (n : Z) : list Z := map Z.of_nat (seq 1 (Z.to_nat n)).

(** [pandas.Series.unique]: distinct values in order of first appearance. *)
Fixpoint unique_from (seen l : list string) : list string :=
  match l with
  | [] => []
  | x :: l' =>
      if bool_decide (x ∈ seen) then unique_from seen l'
      else x :: unique_from (x :: seen) l'
  end.
Definition unique (l : list string) : list string := unique_from [] l.

(** ** The opaque collaborators *)

(** An AEAD primitive of [cryptography.hazmat.primitives.ciphers.aead]:
    what its constructor says to a key, and its two operations
    (key, nonce, data, associated data). *)
Inductive LibResult : Type :=
  | Returns (b : bytes)
  | Fails (msg : string).

Record AEAD : Type := mkAEAD {
  check_key : bytes -> option string;   (* [Some msg]: the key is refused *)
  encrypt : bytes -> bytes -> bytes -> option bytes -> LibResult;
  decrypt : bytes -> bytes -> bytes -> option bytes -> LibResult
}.

(** What reaches the caller of a library operation. *)
Definition lift_lib (r : LibResult) : Outcome bytes :=
  match r with
  | Returns b => Ok b
  | Fails msg => Raise (LibraryError msg)
  end.

(** The dict returned by [run_single_encryption]; ["iter"] is added by
    [benchmark]. *)
Record Metrics : Type := mkMetrics {
  file : string;
  filesize_bytes : Z;
  cipher : string;
  wall_time_sec : float;
  cpu_time_sec : float;
  output_file : string;
  timestamp : float;
  bytes_processed : Z;
  iter : option Z
}.

Definition set_iter (i : Z) (m : Metrics) : Metrics :=
  mkMetrics (file m) (filesize_bytes m) (cipher m) (wall_time_sec m)
            (cpu_time_sec m) (output_file m) (timestamp m) (bytes_processed m)
            (Some i).

(** Parsed command line (lines 221-228). *)
Record Args : Type := mkArgs {
  arg_files : list string;
  arg_iters : Z;
  arg_outdir : string;
  arg_keep_outputs : bool
}.

Section Benchmark.

Variables AESGCM ChaCha20Poly1305 : AEAD.
(** [f"{x:.Nf}"] on a float, and on the exact quotients of [human_bytes]. *)
Variable format_f : nat -> float -> string.
Variable format_fQ : nat -> Q -> string.
(** [Path.resolve] *)
Variable resolve : Path.t -> Path.t.
(** [DataFrame.to_csv] of the raw rows and of the summary, and the
    rendered chart of a summary column; rows come with their size label. *)
Variable raw_csv_bytes : list Metrics -> bytes.
Variable summary_csv_bytes : list (string * Metrics) -> bytes.
Variable chart_png : string -> list (string * Metrics) -> bytes.

Definition primitive (a : Algo) : AEAD :=
  match a with
  | AES_GCM => AESGCM
  | CHACHA20_POLY1305 => ChaCha20Poly1305
  end.

(** [AESGCM(key)] / [ChaCha20Poly1305(key)]: the object holds the key. *)
Definition aead_new (a : Algo) (key : bytes) : Py bytes :=
  fun w =>
    let w' := log (EvNew a key) w in
    match check_key (primitive a) key with
    | None => (Ok key, w')
    | Some msg => (Raise (LibraryError msg), w')
    end.

(** [obj.encrypt(nonce, data, associated_data)] *)
Definition aead_encrypt (a : Algo) (obj nonce data : bytes)
    (associated_data : option bytes) : Py bytes :=
  fun w =>
    (lift_lib (encrypt (primitive a) obj nonce data associated_data),
     log (EvEncrypt a obj nonce data) w).

(** *** helpers (lines 47-63) *)

Fixpoint human_bytes_from (units : list string) (n : Q) : string :=
  match units with
  | [] => format_fQ 2 n +:+ "PB"
  | unit :: units' =>
      if Qltb n 1024 then format_fQ 2 n +:+ unit
      else human_bytes_from units' (n / 1024)%Q
  end.

Definition human_bytes (n : Z) : string :=
  human_bytes_from ["B"; "KB"; "MB"; "GB"; "TB"] (inject_Z n).

Definition encrypt_aes_gcm (key plaintext : bytes) : Py bytes :=
  aesgcm <- aead_new AES_GCM key ;;
  nonce <- token_bytes 12 ;;
  ct <- aead_encrypt AES_GCM aesgcm nonce plaintext None ;;
  ret (nonce ++ ct)%list.

Definition encrypt_chacha (key plaintext : bytes) : Py bytes :=
  chacha <- aead_new CHACHA20_POLY1305 key ;;
  nonce <- token_bytes 12 ;;
  ct <- aead_encrypt CHACHA20_POLY1305 chacha nonce plaintext None ;;
  ret (nonce ++ ct)%list.

(** *** run_single_encryption (lines 66-104) *)

Definition out_file_of (file_path : Path.t) (cipher_name : string)
    (outdir : Path.t) : Path.t :=
  Path.join outdir
    (Path.name file_path +:+ "." +:+ remove_spaces cipher_name +:+ ".ct").

Definition run_single_encryption (file_path : Path.t) (cipher_name : string)
    (key : bytes) (outdir : Path.t) : Py Metrics :=
  size <- stat_size file_path ;;
  start_wall_read <- perf_counter ;;
  plaintext <- read_file file_path ;;
  end_wall_read <- perf_counter ;;
  start_wall <- perf_counter ;;
  start_cpu <- process_time ;;
  ciphertext <-
    (if String.eqb cipher_name "AES-GCM" then encrypt_aes_gcm key plaintext
     else if String.eqb cipher_name "ChaCha20-Poly1305"
          then encrypt_chacha key plaintext
          else raise (ValueError "Unsupported cipher")) ;;
  end_cpu <- process_time ;;
  end_wall <- perf_counter ;;
  let out_file := out_file_of file_path cipher_name outdir in
  write_file out_file ciphertext ;;;
  now <- time_time ;;
  ret {| file := Path.str file_path;
         filesize_bytes := size;
         cipher := cipher_name;
         wall_time_sec :=
           PrimFloat.add (PrimFloat.sub end_wall start_wall)
                         (PrimFloat.sub end_wall_read start_wall_read);
         cpu_time_sec := PrimFloat.sub end_cpu start_cpu;
         output_file := Path.str out_file;
         timestamp := now;
         bytes_processed := Z.of_nat (length plaintext);
         iter := None |}.

(** *** benchmark (lines 107-218) *)

Definition ciphers : list string := ["AES-GCM"; "ChaCha20-Poly1305"].

(** The progress message of line 130. *)
Definition iter_msg (i iters : Z) : string :=
  "    Iter " +:+ pretty i +:+ "/" +:+ pretty iters +:+ " ... ".

(** The body of the innermost loop (lines 129-138).  [run_idx] is
    a counter the program never reads; it is left out. *)
Definition trial (file_path : Path.t) (cipher : string)
    (key_aes key_cha : bytes) (outdir : Path.t) (iters : Z)
    (i : Z) (raw_rows : list Metrics) : Py (list Metrics) :=
  print_noend (iter_msg i iters) ;;;
  try_except
    (let key := if String.eqb cipher "AES-GCM" then key_aes else key_cha in
     metrics <- run_single_encryption file_path cipher key outdir ;;
     let metrics := set_iter i metrics in
     let raw_rows := raw_rows ++ [metrics] in
     print ("done — wall " +:+ format_f 3 (wall_time_sec metrics)
            +:+ "s cpu " +:+ format_f 3 (cpu_time_sec metrics) +:+ "s") ;;;
     ret raw_rows)
    (fun e => print ("ERROR: " +:+ exc_str e) ;;; ret raw_rows).

(** The three nested loops (lines 122-138). *)
Definition cipher_loop (file_path : Path.t) (key_aes key_cha : bytes)
    (outdir : Path.t) (iters : Z) (cipher : string)
    (raw_rows : list Metrics) : Py (list Metrics) :=
  print ("  Cipher: " +:+ cipher) ;;;
  fold_for (range1 iters) (trial file_path cipher key_aes key_cha outdir iters)
           raw_rows.

Definition file_loop (key_aes key_cha : bytes) (outdir : Path.t) (iters : Z)
    (file_path : Path.t) (raw_rows : list Metrics) : Py (list Metrics) :=
  filesize <- stat_size file_path ;;
  print (newline +:+ "File: " +:+ Path.str file_path
         +:+ " (" +:+ human_bytes filesize +:+ ")") ;;;
  fold_for ciphers (cipher_loop file_path key_aes key_cha outdir iters) raw_rows.

Definition run_matrix (files : list Path.t) (key_aes key_cha : bytes)
    (outdir : Path.t) (iters : Z) : Py (list Metrics) :=
  fold_for files (file_loop key_aes key_cha outdir iters) [].

Definition label_rows (raw_rows : list Metrics) : list (string * Metrics) :=
  map (fun row => (size_label (file row) (filesize_bytes row), row)) raw_rows.

(** Lines 142-207: the raw table, the summary and the two charts.  A
    [DataFrame] built from no rows has no columns, so the first column
    access raises [KeyError]. *)
Definition report (outdir : Path.t) (raw_rows : list Metrics) : Py unit :=
  let raw_csv := Path.join outdir "raw_results.csv" in
  write_file raw_csv (raw_csv_bytes raw_rows) ;;;
  print ("Saved raw results to " +:+ Path.str raw_csv) ;;;
  match raw_rows with
  | [] => raise (KeyError "filesize_bytes")
  | _ => ret tt
  end ;;;
  let df := label_rows raw_rows in
  let summary_csv := Path.join outdir "summary_avg.csv" in
  write_file summary_csv (summary_csv_bytes df) ;;;
  print ("Saved summary averages to " +:+ Path.str summary_csv) ;;;
  let time_png := Path.join outdir "time_avg.png" in
  write_file time_png (chart_png "avg_wall_sec" df) ;;;
  print ("Saved chart " +:+ Path.str time_png) ;;;
  let cpu_png := Path.join outdir "cpu_avg.png" in
  write_file cpu_png (chart_png "avg_cpu_sec" df) ;;;
  print ("Saved chart " +:+ Path.str cpu_png).

(** Lines 209-216. *)
Definition cleanup (keep_outputs : bool) (raw_rows : list Metrics) : Py unit :=
  if negb keep_outputs then
    print "Cleaning up temporary ciphertext files ..." ;;;
    for_each (unique (map output_file raw_rows))
             (fun f => try_except (os_remove f) (fun _ => ret tt))
  else ret tt.

(** Lines 108-140: everything up to the end of the trial loops; the
    value is [raw_rows]. *)
Definition collect (files : list Path.t) (iters : Z) (outdir : Path.t)
    : Py (list Metrics) :=
  mkdir_p outdir ;;;
  key_aes <- token_bytes 32 ;;
  key_cha <- token_bytes 32 ;;
  let total_runs := (Z.of_nat (length files) * Z.of_nat (length ciphers) * iters)%Z in
  print ("Starting benchmark: " +:+ pretty (length files) +:+ " files x "
         +:+ pretty (length ciphers) +:+ " ciphers x " +:+ pretty iters
         +:+ " iters = " +:+ pretty total_runs +:+ " runs") ;;;
  print ("Output directory: " +:+ Path.str (resolve outdir)) ;;;
  start_all <- perf_counter ;;
  raw_rows <- run_matrix files key_aes key_cha outdir iters ;;
  end_all <- perf_counter ;;
  let elapsed_all := PrimFloat.sub end_all start_all in
  print (newline +:+ "All runs finished in " +:+ format_f 2 elapsed_all
         +:+ " seconds.") ;;;
  ret raw_rows.

Definition benchmark (files : list Path.t) (iters : Z) (outdir : Path.t)
    (keep_outputs : bool) : Py unit :=
  raw_rows <- collect files iters outdir ;;
  report outdir raw_rows ;;;
  cleanup keep_outputs raw_rows ;;;
  print "Benchmark complete.".

(** *** main (lines 230-241) *)

(** [[str(f) for f in files if not f.exists()]] *)
Fixpoint missing_of (files : list Path.t) : Py (list string) :=
  match files with
  | [] => ret []
  | f :: files' =>
      e <- exists_ f ;;
      rest <- missing_of files' ;;
      ret (if e then rest else Path.str f :: rest)
  end.

Definition main (args : Args) : Py unit :=
  let files := map Path.of_str (arg_files args) in
  missing <- missing_of files ;;
  match missing with
  | _ :: _ =>
      print "ERROR: these files do not exist:" ;;;
      for_each missing (fun m => print ("  " +:+ " " +:+ m)) ;;;
      raise (SystemExit 1)
  | [] => ret tt
  end ;;;
  benchmark files (arg_iters args) (Path.of_str (arg_outdir args))
            (arg_keep_outputs args).

End Benchmark.

(** * Vocabulary of the properties

    The definitions the statements below are written with: the bucketing
    rules as the specification words them, what is assumed of a primitive,
    the worlds a trial passes through, relations between the world before
    and after a computation, and the bookkeeping of the loops. *)

(** ** Size labels *)

(** [x] is within [tol] of [c]. *)
Definition within (x c tol : Q) : Prop := (Qabs (x - c) < tol)%Q.

(** The bucketing rules, one constructor per rule. *)
Inductive bucket (file : string) (mb : Q) : string -> Prop :=
  | bucket_10MB : within mb 10 1 -> bucket file mb "10MB"
  | bucket_100MB : within mb 100 5 -> bucket file mb "100MB"
  | bucket_500MB : within mb 500 20 -> bucket file mb "500MB"
  | bucket_1GB : within mb 1024 100 -> bucket file mb "1GB"
  | bucket_name :
      ~ within mb 10 1 -> ~ within mb 100 5 ->
      ~ within mb 500 20 -> ~ within mb 1024 100 ->
      bucket file mb (Path.name (Path.of_str file)).

(** ** Paths *)

(** The string contains a separator. *)
Fixpoint has_slash (s : string) : bool :=
  match s with
  | EmptyString => false
  | String c s' => Ascii.eqb c "/"%char || has_slash s'
  end.

(** ** Primitives and the random source *)

(** What the adapters need of a primitive: it takes 256-bit keys. *)
Definition accepts_256_bit_keys (P : AEAD) : Prop :=
  forall key, length key = 32 -> check_key P key = None.

(** The primitive's own contract: under a 256-bit key and a 96-bit
    nonce, encryption returns and decryption inverts it. *)
Definition aead_sound (P : AEAD) : Prop :=
  forall key nonce data,
    length key = 32 -> length nonce = 12 ->
    exists ct, encrypt P key nonce data None = Returns ct
               /\ decrypt P key nonce ct None = Returns data.

(** The next [n] bytes of the random source. *)
Definition next_random (w : World) (n : nat) : bytes :=
  map (entropy (oracle w)) (seq (drawn w) n).

(** ** The path through one trial *)

(** The primitive a cipher selector dispatches to (lines 81-86). *)
Definition algo_of (cipher_name : string) : option Algo :=
  if String.eqb cipher_name "AES-GCM" then Some AES_GCM
  else if String.eqb cipher_name "ChaCha20-Poly1305" then Some CHACHA20_POLY1305
  else None.

(** The world when the cipher is chosen: the file has been looked up
    and read between two readings of the wall clock, and the wall and
    CPU clocks have been read once more. *)
Definition at_dispatch (file_path : Path.t) (w : World) : World :=
  let f := Path.str file_path in
  let o := oracle w in
  let p := perf_reads w in
  log (EvProcessTime (process_time_at o (cpu_reads w)))
    (set_cpu_reads (S (cpu_reads w))
       (log (EvPerfCounter (perf_counter_at o (S (S p))))
          (set_perf_reads (S (S (S p)))
             (log (EvPerfCounter (perf_counter_at o (S p)))
                (set_perf_reads (S (S p))
                   (log (EvRead f)
                      (log (EvPerfCounter (perf_counter_at o p))
                         (set_perf_reads (S p) (log (EvStat f) w))))))))).

(** The world an adapter leaves behind a call that reached the primitive. *)
Definition after_adapter (a : Algo) (key plaintext : bytes) (w : World) : World :=
  log (EvEncrypt a key (next_random w 12) plaintext)
    (log (EvTokenBytes (next_random w 12))
       (set_drawn (drawn w + 12) (log (EvNew a key) w))).

(** The world when the output file is opened: both clocks have been
    read after the adapter returned. *)
Definition at_write (out : Path.t) (ct : bytes) (w : World) : World :=
  log (EvWrite (Path.str out) ct)
    (log (EvPerfCounter (perf_counter_at (oracle w) (perf_reads w)))
       (set_perf_reads (S (perf_reads w))
          (log (EvProcessTime (process_time_at (oracle w) (cpu_reads w)))
             (set_cpu_reads (S (cpu_reads w)) w)))).

(** The world a successful trial leaves. *)
Definition completed (out : Path.t) (ct : bytes) (w : World) : World :=
  log (EvTime (time_at (oracle w) (time_reads w)))
    (set_time_reads (S (time_reads w))
       (set_fs (<[Path.str out := File ct]> (fs w)) (at_write out ct w))).

(** The dict a successful trial started in world [w] returns. *)
Definition metrics_of (file_path : Path.t) (cipher_name : string)
    (outdir : Path.t) (w : World) (plaintext : bytes) : Metrics :=
  let o := oracle w in
  let p := perf_reads w in
  {| file := Path.str file_path;
     filesize_bytes := st_size_at o (Path.str file_path) (File plaintext);
     cipher := cipher_name;
     wall_time_sec :=
       PrimFloat.add
         (PrimFloat.sub (perf_counter_at o (S (S (S p))))
                        (perf_counter_at o (S (S p))))
         (PrimFloat.sub (perf_counter_at o (S p)) (perf_counter_at o p));
     cpu_time_sec :=
       PrimFloat.sub (process_time_at o (S (cpu_reads w)))
                     (process_time_at o (cpu_reads w));
     output_file := Path.str (out_file_of file_path cipher_name outdir);
     timestamp := time_at o (time_reads w);
     bytes_processed := Z.of_nat (length plaintext);
     iter := None |}.

Section TrialVocabulary.

Variables AESGCM ChaCha20Poly1305 : AEAD.

(** The adapter of a primitive. *)
Definition adapter (a : Algo) : bytes -> bytes -> Py bytes :=
  match a with
  | AES_GCM => encrypt_aes_gcm AESGCM ChaCha20Poly1305
  | CHACHA20_POLY1305 => encrypt_chacha AESGCM ChaCha20Poly1305
  end.

(** Every path through [run_single_encryption]. *)
Definition trial_outcome (file_path : Path.t) (cipher_name : string)
    (key : bytes) (outdir : Path.t) (w : World) : Outcome Metrics * World :=
  match fs w !! Path.str file_path with
  | None =>
      (Raise (no_entry_error (fs w) file_path (Path.str file_path)),
       log (EvStat (Path.str file_path)) w)
  | Some Dir =>
      (Raise (IsADirectoryError (Path.str file_path)),
       log (EvRead (Path.str file_path))
         (log (EvPerfCounter (perf_counter_at (oracle w) (perf_reads w)))
            (set_perf_reads (S (perf_reads w))
               (log (EvStat (Path.str file_path)) w))))
  | Some (File plaintext) =>
      let wd := at_dispatch file_path w in
      match algo_of cipher_name with
      | None => (Raise (ValueError "Unsupported cipher"), wd)
      | Some a =>
          match check_key (primitive AESGCM ChaCha20Poly1305 a) key with
          | Some msg => (Raise (LibraryError msg), log (EvNew a key) wd)
          | None =>
              let nonce := next_random w 12 in
              let w2 := after_adapter a key plaintext wd in
              match encrypt (primitive AESGCM ChaCha20Poly1305 a)
                            key nonce plaintext None with
              | Fails msg => (Raise (LibraryError msg), w2)
              | Returns body =>
                  let ct := (nonce ++ body)%list in
                  let out := out_file_of file_path cipher_name outdir in
                  match fs w !! Path.str out with
                  | Some Dir =>
                      (Raise (IsADirectoryError (Path.str out)), at_write out ct w2)
                  | _ =>
                      if is_dir (fs w) (Path.parent out)
                      then (Ok (metrics_of file_path cipher_name outdir w plaintext),
                            completed out ct w2)
                      else (Raise (no_entry_error (fs w) out (Path.str out)),
                            at_write out ct w2)
                  end
              end
          end
      end
  end.

End TrialVocabulary.

(** ** Relations between the world before and after a computation *)

(** [c] takes every world to an [R]-related one, whatever its outcome. *)
Definition steps (R : relation World) {A} (c : Py A) : Prop :=
  forall w, R w (c w).2.

(** The trace grows by events that all satisfy [P]. *)
Definition extends (P : Event -> Prop) : relation World :=
  fun w w' => exists d, trace w' = trace w ++ d /\ Forall P d.

(** Files stay files: nothing removes one or turns it into a directory. *)
Definition is_file (m : gmap string Node) (k : string) : Prop :=
  exists content, m !! k = Some (File content).

Definition keeps_files : relation World :=
  fun w w' => forall k, is_file (fs w) k -> is_file (fs w') k.

(** Everything but the file system is left alone. *)
Definition touches_fs_only : relation World :=
  fun w w' =>
    oracle w' = oracle w /\ drawn w' = drawn w /\ perf_reads w' = perf_reads w
    /\ cpu_reads w' = cpu_reads w /\ time_reads w' = time_reads w
    /\ stdout w' = stdout w /\ trace w' = trace w.

(** A property of the world that survives as long as files stay files. *)
Definition fs_stable (I : World -> Prop) : Prop :=
  forall w w', keeps_files w w' -> I w -> I w'.

(** A Hoare triple over [Py]. *)
Definition hoare {A} (P : World -> Prop) (c : Py A)
    (Q : Outcome A -> World -> Prop) : Prop :=
  forall w, P w -> Q (c w).1 (c w).2.


(** ** Rows, loops and cleanup *)

(** The rows a sequence of trial outcomes leaves in [raw_rows]: a
    successful trial contributes its record, tagged with its iteration
    index; a failed one contributes nothing. *)
Definition kept_row (ir : Z * Outcome Metrics) : option Metrics :=
  match ir.2 with
  | Ok m => Some (set_iter ir.1 m)
  | Raise _ => None
  end.


Definition rows_of (r : Outcome (list Metrics)) : list Metrics :=
  match r with
  | Ok rows => rows
  | Raise _ => []
  end.



Section CellVocabulary.

Variables AESGCM ChaCha20Poly1305 : AEAD.
Variable format_f : nat -> float -> string.
Variables (file_path : Path.t) (cipher_name : string) (key_aes key_cha : bytes)
          (outdir : Path.t) (iters : Z).

(** The call of line 133. *)
Definition call_runner : Py Metrics :=
  run_single_encryption AESGCM ChaCha20Poly1305 file_path cipher_name
    (if String.eqb cipher_name "AES-GCM" then key_aes else key_cha) outdir.

(** The outcome of each iteration of the innermost loop, in order:
    what [run_single_encryption] answers in the world in which the
    loop calls it. *)
Fixpoint trial_results (indices : list Z) (w : World)
    : list (Z * Outcome Metrics) :=
  match indices with
  | [] => []
  | i :: indices' =>
      (i, (call_runner (emit (iter_msg i iters) w)).1)
      :: trial_results indices'
           (trial AESGCM ChaCha20Poly1305 format_f file_path cipher_name
                  key_aes key_cha outdir iters i [] w).2
  end.

End CellVocabulary.

Section RowVocabulary.

Variables (files : list Path.t) (outdir : Path.t).



End RowVocabulary.

(** ** Keys *)

Section KeyVocabulary.

Variables key_aes key_cha : bytes.



End KeyVocabulary.



(** ** Validation of the command line *)

(** The path does not exist. *)
Definition absent (m : gmap string Node) (p : Path.t) : bool :=
  negb (bool_decide (is_Some (m !! Path.str p))).

(** The input paths that do not exist, as [main] lists them. *)
Definition missing_in (m : gmap string Node) (files : list Path.t) : list string :=
  map Path.str (List.filter (absent m) files).

(** The world after an existence check of each path, and after a
    sequence of lines has been printed. *)
Definition stat_all (files : list Path.t) (w : World) : World :=
  fold_left (fun w p => log (EvStat (Path.str p)) w) files w.


(** ** Human-readable sizes *)

(** The units [human_bytes] walks through, and the size after [k]
    divisions by 1024. *)
Definition byte_units : list string := ["B"; "KB"; "MB"; "GB"; "TB"].

Definition scaled (n : Z) (k : nat) : Q :=
  Nat.iter k (fun q => (q / 1024)%Q) (inject_Z n).


(** The part of a path string after its last separator. *)
Definition base (s : string) : string := List.last (split_slash s) "".

(** The roots [Path.of_str] produces. *)
Definition posix_root (r : string) : Prop := r = "" \/ r = "/" \/ r = "//".

(** ** Progress output and the order of the rows *)


(** What identifies a row of the raw table, and the trials of a run in
    the order of the three loops. *)
Definition row_key (m : Metrics) : string * string * option Z :=
  (file m, cipher m, iter m).

Definition cell_keys (f : Path.t) (iters : Z) (c : string)
    : list (string * string * option Z) :=
  map (fun i => (Path.str f, c, Some i)) (range1 iters).

Definition matrix (files : list Path.t) (iters : Z)
    : list (string * string * option Z) :=
  flat_map (fun f => flat_map (cell_keys f iters) ciphers) files.

(** The outcome, if normal, extends [s] by rows whose keys are picked,
    in order, from [ks]. *)
Definition grows (ks : list (string * string * option Z)) (s : list Metrics)
    (r : Outcome (list Metrics)) : Prop :=
  match r with
  | Ok s' => exists new, s' = s ++ new /\ sublist (map row_key new) ks
  | Raise _ => True
  end.

(** ** Random draws *)

(** The bytes drawn from the random source along a trace, in order. *)
Definition drawn_bytes (d : list Event) : bytes :=
  flat_map (fun e => match e with EvTokenBytes bs => bs | _ => [] end) d.

Definition is_encrypt (e : Event) : bool :=
  match e with
  | EvEncrypt _ _ _ _ => true
  | _ => false
  end.

Definition is_draw (e : Event) : bool :=
  match e with
  | EvTokenBytes _ => true
  | _ => false
  end.

(** Every encryption of the trace comes right after the draw of its
    nonce, 12 bytes long. *)
Inductive nonce_paired : list Event -> Prop :=
  | np_nil : nonce_paired []
  | np_pair a key nonce data rest :
      length nonce = 12 -> nonce_paired rest ->
      nonce_paired (EvTokenBytes nonce :: EvEncrypt a key nonce data :: rest)
  | np_other e rest :
      is_encrypt e = false -> nonce_paired rest -> nonce_paired (e :: rest).

(** Between the two worlds every encryption used a nonce drawn for it,
    and the draws read the random source onwards from where it stood,
    each byte once. *)
Definition fresh_draws : relation World :=
  fun w w' =>
    oracle w' = oracle w
    /\ exists d,
         trace w' = trace w ++ d
         /\ nonce_paired d
         /\ drawn w' = drawn w + length (drawn_bytes d)
         /\ drawn_bytes d = next_random w (length (drawn_bytes d)).


(** ** Result files *)


(** ** File operations *)






(** ** The trials of a run *)




Section MatrixVocabulary.

Variables AESGCM ChaCha20Poly1305 : AEAD.
Variable format_f : nat -> float -> string.
Variable format_fQ : nat -> Q -> string.
Variables (key_aes key_cha : bytes) (outdir : Path.t) (iters : Z).





End MatrixVocabulary.

(** ** A reference instance

    A stand-in for the two primitives that authenticates but does not
    hide: the ciphertext is the data followed by a 16-byte tag made of
    the key's and the nonce's first bytes.  It accepts 32-byte keys and
    12-byte nonces only.  It serves to run the program on concrete
    worlds. *)
Module Demo.

#[global] Instance byte_eq_dec : EqDecision Byte.byte := Byte.byte_eq_dec.

Definition tag (key nonce : bytes) : bytes :=
  take 16 (take 8 key ++ take 8 nonce ++ replicate 16 Byte.x00)%list.

Definition seal (key nonce data : bytes) (aad : option bytes) : LibResult :=
  if negb (Nat.eqb (length nonce) 12) then Fails "Nonce must be 12 bytes"
  else Returns (data ++ tag key nonce)%list.

Definition unseal (key nonce ct : bytes) (aad : option bytes) : LibResult :=
  if negb (Nat.eqb (length nonce) 12) then Fails "Nonce must be 12 bytes"
  else if Nat.ltb (length ct) 16 then Fails "InvalidTag"
  else
    let n := length ct - 16 in
    if bool_decide (drop n ct = tag key nonce) then Returns (take n ct)
    else Fails "InvalidTag".

Definition aead : AEAD :=
  {| check_key := fun key =>
       if Nat.eqb (length key) 32 then None else Some "key must be 256 bits";
     encrypt := seal;
     decrypt := unseal |}.

Fixpoint float_of_nat (n : nat) : float :=
  match n with
  | O => 0%float
  | S k => PrimFloat.add (float_of_nat k) 1%float
  end.

(** Random byte [n] is [n mod 256]; the clocks tick by 10 s, 3 s and
    1 s per reading. *)
Definition clockwork : Oracle :=
  {| entropy := fun n => default Byte.x00 (Byte.of_nat (n mod 256));
     perf_counter_at := fun n => PrimFloat.mul 10%float (float_of_nat n);
     process_time_at := fun n => PrimFloat.mul 3%float (float_of_nat n);
     time_at := fun n => PrimFloat.add 1700000000%float (float_of_nat n);
     st_size_at := fun _ node =>
       match node with
       | File c => Z.of_nat (length c)
       | Dir => 4096%Z
       end |}.

(** A world whose working directory holds one 3-byte file. *)
Definition world : World :=
  {| oracle := clockwork;
     fs := {[ "f.bin" := File [Byte.x61; Byte.x62; Byte.x63] ]};
     drawn := 0; perf_reads := 0; cpu_reads := 0; time_reads := 0;
     stdout := []; trace := [] |}.

Definition fmt (n : nat) (x : float) : string := "?".
Definition fmtQ (n : nat) (x : Q) : string := "?".
Definition csv (rows : list Metrics) : bytes := [].
Definition csv2 (rows : list (string * Metrics)) : bytes := [].
Definition png (col : string) (rows : list (string * Metrics)) : bytes := [].

Definition run_single := run_single_encryption aead aead.
Definition bench := benchmark aead aead fmt fmtQ (fun p => p) csv csv2 png.
Definition run_main := main aead aead fmt fmtQ (fun p => p) csv csv2 png.

End Demo.

(** The inputs of the concrete runs below. *)
Definition demo_key : bytes := replicate 32 Byte.x01.
Definition demo_plaintext : bytes := [Byte.x68; Byte.x69].
Definition demo_file : Path.t := Path.of_str "f.bin".
Definition demo_outdir : Path.t := Path.of_str "out".



(** * Properties *)

(** ** Size labels *)

Lemma Qltb_lt (x y : Q) : Qltb x y = true <-> (x < y)%Q.
Proof.
  unfold Qltb. rewrite negb_true_iff, <- not_true_iff_false, Qle_bool_iff.
  split; [apply Qnot_le_lt | apply Qlt_not_le].
Qed.

Lemma Qltb_within (x c tol : Q) : Qltb (Qabs (x - c)) tol = true <-> within x c tol.
Proof. apply Qltb_lt. Qed.

Lemma within_bounds (x c tol : Q) :
  within x c tol <-> (c - tol < x /\ x < c + tol)%Q.
Proof.
  unfold within. rewrite Qabs_Qlt_condition. split; intros [H1 H2]; split; lra.
Qed.

(** The four windows are pairwise disjoint, so the order in which the
    program tests them does not matter. *)
Lemma windows_disjoint (x : Q) :
  (within x 10 1 -> ~ within x 100 5 /\ ~ within x 500 20 /\ ~ within x 1024 100)
  /\ (within x 100 5 -> ~ within x 500 20 /\ ~ within x 1024 100)
  /\ (within x 500 20 -> ~ within x 1024 100).
Proof.
  rewrite !within_bounds.
  split; [| split]; intros [? ?]; repeat split; intros [? ?]; lra.
Qed.

Lemma size_label_bucket (file : string) (size : Z) :
  bucket file (filesize_MB size) (size_label file size).
Proof.
  unfold size_label. cbv zeta.
  destruct (Qltb (Qabs (filesize_MB size - 10)) 1) eqn:H10.
  { apply bucket_10MB. by apply Qltb_within. }
  destruct (Qltb (Qabs (filesize_MB size - 100)) 5) eqn:H100.
  { apply bucket_100MB. by apply Qltb_within. }
  destruct (Qltb (Qabs (filesize_MB size - 500)) 20) eqn:H500.
  { apply bucket_500MB. by apply Qltb_within. }
  destruct (Qltb (Qabs (filesize_MB size - 1024)) 100) eqn:H1024.
  { apply bucket_1GB. by apply Qltb_within. }
  apply bucket_name; rewrite <- Qltb_within; congruence.
Qed.

Lemma bucket_functional (file : string) (mb : Q) (l1 l2 : string) :
  bucket file mb l1 -> bucket file mb l2 -> l1 = l2.
Proof.
  destruct (windows_disjoint mb) as (D1 & D2 & D3).
  intros H1 H2; destruct H1, H2; try reflexivity; exfalso;
    repeat match goal with
           | H : within _ _ _ -> _, W : within _ _ _ |- _ => specialize (H W)
           end; tauto.
Qed.

(** C3. The label of a record is "10MB" when its size in MB is within 1
    of 10, "100MB" when within 5 of 100, "500MB" when within 20 of 500,
    "1GB" when within 100 of 1024, and the file's base name otherwise
    (no other label satisfies the rules); 10,485,760 bytes give "10MB",
    104,857,600 bytes "100MB", 1,073,741,824 bytes "1GB", and 7,000,000
    bytes the file's own name. *)
Theorem size_label_buckets (file : string) (size : Z) (label : string) :
  (bucket file (filesize_MB size) label <-> size_label file size = label)
  /\ size_label file 10485760 = "10MB"
  /\ size_label file 104857600 = "100MB"
  /\ size_label file 1073741824 = "1GB"
  /\ size_label file 7000000 = Path.name (Path.of_str file).
Proof.
  split; [| repeat split].
  split.
  - intros H. eapply bucket_functional; [apply size_label_bucket | exact H].
  - intros <-. apply size_label_bucket.
Qed.

(** ** Output file names *)

Lemma has_slash_app (a b : string) :
  has_slash (a +:+ b) = has_slash a || has_slash b.
Proof.
  induction a as [| c a IH]; [done |].
  change (String c a +:+ b) with (String c (a +:+ b)). cbn.
  by rewrite IH, orb_assoc.
Qed.

Lemma has_slash_remove_spaces (s : string) :
  has_slash s = false -> has_slash (remove_spaces s) = false.
Proof.
  induction s as [| c s IH]; cbn; [done |].
  intros [Hc Hs]%orb_false_elim.
  destruct (Ascii.eqb c " "); [by apply IH |]. cbn. by rewrite Hc, IH.
Qed.

Lemma split_slash_parts (s : string) :
  Forall (fun c => has_slash c = false) (split_slash s).
Proof.
  induction s as [| a s IH]; cbn.
  - by constructor.
  - destruct (Ascii.eqb a "/") eqn:Ea; [by constructor |].
    destruct (split_slash s) as [| w ws]; [constructor; [cbn; by rewrite Ea | done] |].
    inversion_clear IH as [| ? ? Hw Hws]. constructor; [| done].
    cbn. by rewrite Ea.
Qed.

Lemma split_slash_plain (s : string) : has_slash s = false -> split_slash s = [s].
Proof.
  induction s as [| a s IH]; cbn; [done |].
  destruct (Ascii.eqb a "/"); [done |]. intros Hs. by rewrite (IH Hs).
Qed.

Lemma leading_slashes_plain (s : string) :
  has_slash s = false -> leading_slashes s = 0.
Proof. destruct s as [| a s]; cbn; [done |]. by destruct (Ascii.eqb a "/"). Qed.

(** A base name contains no separator. *)
Lemma name_of_str_plain (s : string) : has_slash (Path.name (Path.of_str s)) = false.
Proof.
  unfold Path.name, Path.of_str. cbn [Path.parts].
  assert (H : Forall (fun c => has_slash c = false)
                (filter (fun c => Is_true (Path.keep_part c)) (split_slash s)))
    by (apply Forall_forall; intros c [_ Hc]%list_elem_of_filter;
        revert c Hc; apply Forall_forall, split_slash_parts).
  induction H as [| c [| c' l] Hc _ IH]; done.
Qed.

(** [Path(x)] for a single component [x]. *)
Lemma of_str_component (x : string) :
  has_slash x = false -> x <> "" -> x <> "." ->
  Path.of_str x = Path.mk "" [x].
Proof.
  intros Hs Hne Hdot. unfold Path.of_str.
  rewrite leading_slashes_plain, split_slash_plain by done.
  rewrite filter_cons_True, filter_nil; [done |].
  unfold Path.keep_part.
  destruct (String.eqb_spec x ""); [done |].
  by destruct (String.eqb_spec x ".").
Qed.

(** The output file of a trial is the entry of the output directory whose
    name is the input's base name, a dot, the cipher name without spaces,
    and ".ct" (line 91). *)
Lemma out_file_name (s cipher_name : string) (outdir : Path.t) :
  has_slash cipher_name = false ->
  let x := Path.name (Path.of_str s) +:+ "." +:+ remove_spaces cipher_name +:+ ".ct" in
  Path.name (out_file_of (Path.of_str s) cipher_name outdir) = x
  /\ Path.parent (out_file_of (Path.of_str s) cipher_name outdir) = outdir.
Proof.
  intros Hc x. unfold out_file_of, Path.join. fold x.
  assert (Hx : Path.of_str x = Path.mk "" [x]).
  { apply of_str_component.
    - unfold x. rewrite !has_slash_app, name_of_str_plain,
        has_slash_remove_spaces by done. done.
    - unfold x. by destruct (Path.name (Path.of_str s)).
    - unfold x. destruct (Path.name (Path.of_str s)) as [| a [| b n]]; cbn;
        [by destruct (remove_spaces cipher_name) | done | done]. }
  rewrite Hx. cbn [Path.root Path.parts]. split.
  - unfold Path.name. cbn [Path.parts]. apply last_last.
  - unfold Path.parent. cbn [Path.root Path.parts].
    rewrite removelast_last. by destruct outdir.
Qed.

(** ** The AEAD adapters *)

Lemma next_random_length (w : World) (n : nat) : length (next_random w n) = n.
Proof. unfold next_random. by rewrite length_map, length_seq. Qed.

Section Adapters.

Variables AESGCM ChaCha20Poly1305 : AEAD.

Lemma adapter_unfold (a : Algo) (key plaintext : bytes) (w : World) :
  adapter AESGCM ChaCha20Poly1305 a key plaintext w =
  match check_key (primitive AESGCM ChaCha20Poly1305 a) key with
  | Some msg => (Raise (LibraryError msg), log (EvNew a key) w)
  | None =>
      (match encrypt (primitive AESGCM ChaCha20Poly1305 a) key (next_random w 12) plaintext None with
       | Returns ct => Ok (next_random w 12 ++ ct)%list
       | Fails msg => Raise (LibraryError msg)
       end,
       after_adapter a key plaintext w)
  end.
Proof.
  destruct a; cbn -[seq];
    unfold encrypt_aes_gcm, encrypt_chacha, bind, aead_new, aead_encrypt;
    cbn -[seq];
    (destruct (check_key _ key); [reflexivity |]);
    unfold token_bytes, after_adapter, next_random; cbn -[seq];
    match goal with |- context [encrypt ?P ?k ?n ?d None] =>
      destruct (encrypt P k n d None) end; reflexivity.
Qed.

(** C2. Under a key of 256 bits, each adapter draws 12 fresh bytes
    from the random source as the nonce, calls the primitive with that
    nonce, the plaintext and no associated data, and returns the nonce
    followed by everything the primitive returned (ciphertext and tag);
    a failure of the primitive is passed on. *)
Theorem adapter_output (a : Algo) (key plaintext : bytes) (w : World) :
  length key = 32 ->
  accepts_256_bit_keys (primitive AESGCM ChaCha20Poly1305 a) ->
  let nonce := next_random w 12 in
  let (r, w') := adapter AESGCM ChaCha20Poly1305 a key plaintext w in
  length nonce = 12
  /\ r = match encrypt (primitive AESGCM ChaCha20Poly1305 a) key nonce plaintext None with
         | Returns ct => Ok (nonce ++ ct)%list
         | Fails msg => Raise (LibraryError msg)
         end
  /\ drawn w' = drawn w + 12
  /\ trace w' = (trace w ++ [EvNew a key; EvTokenBytes nonce;
                             EvEncrypt a key nonce plaintext])%list.
Proof.
  intros Hlen Hacc nonce. rewrite adapter_unfold, (Hacc key Hlen).
  split; [apply next_random_length |].
  split; [reflexivity |]. split; [reflexivity |].
  cbn. by rewrite <- !app_assoc.
Qed.

(** C1. Under a 256-bit key and a sound primitive, the adapter returns,
    and decrypting with the same key, the first 12 bytes of its output
    as nonce and the rest as ciphertext gives back the plaintext. *)
Theorem adapter_roundtrip (a : Algo) (key plaintext : bytes) (w : World) :
  length key = 32 ->
  accepts_256_bit_keys (primitive AESGCM ChaCha20Poly1305 a) ->
  aead_sound (primitive AESGCM ChaCha20Poly1305 a) ->
  exists out,
    (adapter AESGCM ChaCha20Poly1305 a key plaintext w).1 = Ok out
    /\ decrypt (primitive AESGCM ChaCha20Poly1305 a) key (take 12 out) (drop 12 out) None = Returns plaintext.
Proof.
  intros Hlen Hacc Hsound. rewrite adapter_unfold, (Hacc key Hlen).
  destruct (Hsound key (next_random w 12) plaintext Hlen
              (next_random_length w 12)) as (ct & Henc & Hdec).
  rewrite Henc. eexists; split; [reflexivity |].
  rewrite take_app_length', drop_app_length'
    by (symmetry; apply next_random_length).
  exact Hdec.
Qed.

End Adapters.

(** ** One trial *)

Section Trial.

Variables AESGCM ChaCha20Poly1305 : AEAD.

Lemma at_dispatch_trace (file_path : Path.t) (w : World) :
  trace (at_dispatch file_path w) =
  (trace w ++ [EvStat (Path.str file_path);
               EvPerfCounter (perf_counter_at (oracle w) (perf_reads w));
               EvRead (Path.str file_path);
               EvPerfCounter (perf_counter_at (oracle w) (S (perf_reads w)));
               EvPerfCounter (perf_counter_at (oracle w) (S (S (perf_reads w))));
               EvProcessTime (process_time_at (oracle w) (cpu_reads w))])%list.
Proof. cbn. by rewrite <- !app_assoc. Qed.

Lemma run_single_encryption_read (file_path : Path.t) (cipher_name : string)
    (key : bytes) (outdir : Path.t) (w : World) :
  run_single_encryption AESGCM ChaCha20Poly1305 file_path cipher_name key outdir w =
  match fs w !! Path.str file_path with
  | None =>
      (Raise (no_entry_error (fs w) file_path (Path.str file_path)),
       log (EvStat (Path.str file_path)) w)
  | Some Dir =>
      (Raise (IsADirectoryError (Path.str file_path)),
       log (EvRead (Path.str file_path))
         (log (EvPerfCounter (perf_counter_at (oracle w) (perf_reads w)))
            (set_perf_reads (S (perf_reads w))
               (log (EvStat (Path.str file_path)) w))))
  | Some (File plaintext) =>
      bind
        (match algo_of cipher_name with
         | Some a => adapter AESGCM ChaCha20Poly1305 a key plaintext
         | None => raise (ValueError "Unsupported cipher")
         end)
        (fun ciphertext =>
           end_cpu <- process_time ;;
           end_wall <- perf_counter ;;
           let out_file := out_file_of file_path cipher_name outdir in
           write_file out_file ciphertext ;;;
           now <- time_time ;;
           ret {| file := Path.str file_path;
                  filesize_bytes :=
                    st_size_at (oracle w) (Path.str file_path) (File plaintext);
                  cipher := cipher_name;
                  wall_time_sec :=
                    PrimFloat.add
                      (PrimFloat.sub end_wall
                         (perf_counter_at (oracle w) (S (S (perf_reads w)))))
                      (PrimFloat.sub
                         (perf_counter_at (oracle w) (S (perf_reads w)))
                         (perf_counter_at (oracle w) (perf_reads w)));
                  cpu_time_sec :=
                    PrimFloat.sub end_cpu
                      (process_time_at (oracle w) (cpu_reads w));
                  output_file := Path.str out_file;
                  timestamp := now;
                  bytes_processed := Z.of_nat (length plaintext);
                  iter := None |})
        (at_dispatch file_path w)
  end.
Proof.
  unfold run_single_encryption, bind at 1, stat_size.
  destruct (fs w !! Path.str file_path) as [[plaintext |] |] eqn:Hfs;
    [| | reflexivity].
  - unfold bind, perf_counter, read_file, process_time, algo_of, adapter.
    cbn. rewrite Hfs. cbn.
    destruct (String.eqb cipher_name "AES-GCM"); [reflexivity |].
    destruct (String.eqb cipher_name "ChaCha20-Poly1305"); reflexivity.
  - unfold bind, perf_counter, read_file. cbn. rewrite Hfs. reflexivity.
Qed.

(** Lines 87-104, from the world [w2] the adapter left. *)
Lemma finish_trial_unfold (out : Path.t) (ct : bytes) (w2 : World)
    (mk : float -> float -> float -> Metrics) :
  (end_cpu <- process_time ;;
   end_wall <- perf_counter ;;
   write_file out ct ;;;
   now <- time_time ;;
   ret (mk end_cpu end_wall now)) w2
  = match fs w2 !! Path.str out with
    | Some Dir => (Raise (IsADirectoryError (Path.str out)), at_write out ct w2)
    | _ =>
        if is_dir (fs w2) (Path.parent out)
        then (Ok (mk (process_time_at (oracle w2) (cpu_reads w2))
                     (perf_counter_at (oracle w2) (perf_reads w2))
                     (time_at (oracle w2) (time_reads w2))),
              completed out ct w2)
        else (Raise (no_entry_error (fs w2) out (Path.str out)),
              at_write out ct w2)
    end.
Proof.
  unfold bind, process_time, perf_counter, write_file, time_time, ret.
  change (fs (log _ (set_perf_reads _ (log _ (set_cpu_reads _ w2))))) with (fs w2).
  destruct (fs w2 !! Path.str out) as [[? |] |]; try reflexivity;
    destruct (is_dir (fs w2) (Path.parent out)); reflexivity.
Qed.

Lemma run_single_encryption_unfold (file_path : Path.t) (cipher_name : string)
    (key : bytes) (outdir : Path.t) (w : World) :
  run_single_encryption AESGCM ChaCha20Poly1305 file_path cipher_name key outdir w
  = trial_outcome AESGCM ChaCha20Poly1305 file_path cipher_name key outdir w.
Proof.
  rewrite run_single_encryption_read. unfold trial_outcome.
  destruct (fs w !! Path.str file_path) as [[plaintext |] |] eqn:Hfs;
    [| reflexivity | reflexivity].
  destruct (algo_of cipher_name) as [a |]; [| reflexivity].
  unfold bind at 1. rewrite adapter_unfold.
  destruct (check_key _ key); [reflexivity |].
  change (next_random (at_dispatch file_path w) 12) with (next_random w 12).
  destruct (encrypt _ key (next_random w 12) plaintext None); [| reflexivity].
  cbv zeta.
  rewrite (finish_trial_unfold _ _ _
             (fun end_cpu end_wall now =>
                mkMetrics _ _ _ (PrimFloat.add (PrimFloat.sub end_wall _) _)
                          (PrimFloat.sub end_cpu _) _ now _ _)).
  reflexivity.
Qed.

End Trial.

(** Field-by-field simplification of the worlds built by the program. *)
Ltac wsimpl :=
  cbn [oracle fs drawn perf_reads cpu_reads time_reads stdout trace
       log emit set_fs set_drawn set_perf_reads set_cpu_reads set_time_reads
       fst snd] in *.

Lemma world_eq (w1 w2 : World) :
  oracle w1 = oracle w2 -> fs w1 = fs w2 -> drawn w1 = drawn w2 ->
  perf_reads w1 = perf_reads w2 -> cpu_reads w1 = cpu_reads w2 ->
  time_reads w1 = time_reads w2 -> stdout w1 = stdout w2 ->
  trace w1 = trace w2 -> w1 = w2.
Proof. destruct w1, w2; cbn; intros; by subst. Qed.

(** The worlds of a trial with their fields spelled out. *)
Lemma at_dispatch_eq (file_path : Path.t) (w : World) :
  at_dispatch file_path w =
  mkWorld (oracle w) (fs w) (drawn w) (S (S (S (perf_reads w))))
    (S (cpu_reads w)) (time_reads w) (stdout w)
    (trace w ++ [EvStat (Path.str file_path);
                 EvPerfCounter (perf_counter_at (oracle w) (perf_reads w));
                 EvRead (Path.str file_path);
                 EvPerfCounter (perf_counter_at (oracle w) (S (perf_reads w)));
                 EvPerfCounter (perf_counter_at (oracle w) (S (S (perf_reads w))));
                 EvProcessTime (process_time_at (oracle w) (cpu_reads w))]).
Proof.
  apply world_eq; try reflexivity. apply at_dispatch_trace.
Qed.

Lemma after_adapter_eq (a : Algo) (key plaintext : bytes) (w : World) :
  after_adapter a key plaintext w =
  mkWorld (oracle w) (fs w) (drawn w + 12) (perf_reads w) (cpu_reads w)
    (time_reads w) (stdout w)
    (trace w ++ [EvNew a key; EvTokenBytes (next_random w 12);
                 EvEncrypt a key (next_random w 12) plaintext]).
Proof.
  apply world_eq; try reflexivity.
  unfold after_adapter. wsimpl. by rewrite <- !app_assoc.
Qed.

Lemma at_write_eq (out : Path.t) (ct : bytes) (w : World) :
  at_write out ct w =
  mkWorld (oracle w) (fs w) (drawn w) (S (perf_reads w)) (S (cpu_reads w))
    (time_reads w) (stdout w)
    (trace w ++ [EvProcessTime (process_time_at (oracle w) (cpu_reads w));
                 EvPerfCounter (perf_counter_at (oracle w) (perf_reads w));
                 EvWrite (Path.str out) ct]).
Proof.
  apply world_eq; try reflexivity.
  unfold at_write. wsimpl. by rewrite <- !app_assoc.
Qed.

Lemma completed_eq (out : Path.t) (ct : bytes) (w : World) :
  completed out ct w =
  mkWorld (oracle w) (<[Path.str out := File ct]> (fs w)) (drawn w)
    (S (perf_reads w)) (S (cpu_reads w)) (S (time_reads w)) (stdout w)
    (trace w ++ [EvProcessTime (process_time_at (oracle w) (cpu_reads w));
                 EvPerfCounter (perf_counter_at (oracle w) (perf_reads w));
                 EvWrite (Path.str out) ct;
                 EvTime (time_at (oracle w) (time_reads w))]).
Proof.
  apply world_eq; try reflexivity.
  unfold completed, at_write. wsimpl. by rewrite <- !app_assoc.
Qed.

Lemma next_random_at_dispatch (file_path : Path.t) (w : World) (n : nat) :
  next_random (at_dispatch file_path w) n = next_random w n.
Proof. reflexivity. Qed.

(** Projections of an explicit world, as rewriting rules: rewriting keeps
    the terms small where unfolding nested worlds would not. *)
Lemma oracle_mk o f d p c t s tr : oracle (mkWorld o f d p c t s tr) = o.
Proof. reflexivity. Qed.
Lemma fs_mk o f d p c t s tr : fs (mkWorld o f d p c t s tr) = f.
Proof. reflexivity. Qed.
Lemma drawn_mk o f d p c t s tr : drawn (mkWorld o f d p c t s tr) = d.
Proof. reflexivity. Qed.
Lemma perf_reads_mk o f d p c t s tr : perf_reads (mkWorld o f d p c t s tr) = p.
Proof. reflexivity. Qed.
Lemma cpu_reads_mk o f d p c t s tr : cpu_reads (mkWorld o f d p c t s tr) = c.
Proof. reflexivity. Qed.
Lemma time_reads_mk o f d p c t s tr : time_reads (mkWorld o f d p c t s tr) = t.
Proof. reflexivity. Qed.
Lemma stdout_mk o f d p c t s tr : stdout (mkWorld o f d p c t s tr) = s.
Proof. reflexivity. Qed.
Lemma trace_mk o f d p c t s tr : trace (mkWorld o f d p c t s tr) = tr.
Proof. reflexivity. Qed.

Ltac wproj :=
  rewrite ?oracle_mk, ?fs_mk, ?drawn_mk, ?perf_reads_mk, ?cpu_reads_mk,
    ?time_reads_mk, ?stdout_mk, ?trace_mk.

(** Normalise a world built by a trial, outermost step first. *)
Ltac wnorm :=
  rewrite ?completed_eq, ?at_write_eq; wproj;
  rewrite ?after_adapter_eq; wproj;
  rewrite ?next_random_at_dispatch, ?at_dispatch_eq; wproj.

Lemma algo_of_None (cipher_name : string) :
  algo_of cipher_name = None <->
  cipher_name <> "AES-GCM" /\ cipher_name <> "ChaCha20-Poly1305".
Proof.
  unfold algo_of.
  destruct (String.eqb_spec cipher_name "AES-GCM");
    destruct (String.eqb_spec cipher_name "ChaCha20-Poly1305");
    split; try discriminate; try tauto; intros [? ?]; congruence.
Qed.

Section TrialProperties.

Variables AESGCM ChaCha20Poly1305 : AEAD.

(** What a successful run tells: the input was a readable file, the
    selector named a primitive, and record and world are these. *)
Lemma run_single_encryption_Ok (file_path : Path.t) (cipher_name : string)
    (key : bytes) (outdir : Path.t) (w w' : World) (m : Metrics) :
  run_single_encryption AESGCM ChaCha20Poly1305 file_path cipher_name key outdir w
  = (Ok m, w') ->
  exists a plaintext body,
    fs w !! Path.str file_path = Some (File plaintext)
    /\ algo_of cipher_name = Some a
    /\ encrypt (primitive AESGCM ChaCha20Poly1305 a) key (next_random w 12)
               plaintext None = Returns body
    /\ m = metrics_of file_path cipher_name outdir w plaintext
    /\ w' = completed (out_file_of file_path cipher_name outdir)
              (next_random w 12 ++ body)
              (after_adapter a key plaintext (at_dispatch file_path w)).
Proof.
  rewrite run_single_encryption_unfold. unfold trial_outcome. intros H.
  destruct (fs w !! Path.str file_path) as [[plaintext |] |]; try discriminate.
  destruct (algo_of cipher_name) as [a |]; try discriminate.
  destruct (check_key _ key); try discriminate.
  destruct (encrypt _ key (next_random w 12) plaintext None) as [body |] eqn:Henc;
    try discriminate.
  exists a, plaintext, body. cbv zeta in H.
  destruct (fs w !! Path.str (out_file_of file_path cipher_name outdir))
    as [[? |] |];
    try discriminate;
    destruct (is_dir (fs w) (Path.parent (out_file_of file_path cipher_name outdir)));
    try discriminate; by inversion H.
Qed.

(** Conversely, this is all a trial needs to succeed. *)
Lemma run_single_encryption_succeeds (file_path : Path.t) (cipher_name : string)
    (key : bytes) (outdir : Path.t) (w : World) (a : Algo)
    (plaintext body : bytes) :
  fs w !! Path.str file_path = Some (File plaintext) ->
  algo_of cipher_name = Some a ->
  check_key (primitive AESGCM ChaCha20Poly1305 a) key = None ->
  encrypt (primitive AESGCM ChaCha20Poly1305 a) key (next_random w 12)
          plaintext None = Returns body ->
  fs w !! Path.str (out_file_of file_path cipher_name outdir) <> Some Dir ->
  is_dir (fs w) (Path.parent (out_file_of file_path cipher_name outdir)) = true ->
  run_single_encryption AESGCM ChaCha20Poly1305 file_path cipher_name key outdir w
  = (Ok (metrics_of file_path cipher_name outdir w plaintext),
     completed (out_file_of file_path cipher_name outdir)
       (next_random w 12 ++ body)
       (after_adapter a key plaintext (at_dispatch file_path w))).
Proof.
  intros Hf Ha Hk He Hout Hdir.
  rewrite run_single_encryption_unfold. unfold trial_outcome.
  rewrite Hf, Ha, Hk, He. cbv zeta. rewrite Hdir.
  by destruct (fs w !! Path.str (out_file_of file_path cipher_name outdir))
    as [[? |] |].
Qed.

(** C8. In the record of a successful trial the wall time is the sum of
    the encryption duration and the read duration, each the difference
    of the two wall-clock readings that enclose respectively the
    adapter call and the file read; the CPU time is the difference of
    the two CPU-clock readings that enclose the adapter call alone: the
    read comes before the first, the write after the second, and the
    write lies outside both wall-clock intervals. *)
Theorem trial_record_times (file_path : Path.t) (cipher_name : string)
    (key : bytes) (outdir : Path.t) (w w' : World) (m : Metrics) :
  run_single_encryption AESGCM ChaCha20Poly1305 file_path cipher_name key outdir w
  = (Ok m, w') ->
  let start_wall_read := perf_counter_at (oracle w) (perf_reads w) in
  let end_wall_read := perf_counter_at (oracle w) (S (perf_reads w)) in
  let start_wall := perf_counter_at (oracle w) (S (S (perf_reads w))) in
  let end_wall := perf_counter_at (oracle w) (S (S (S (perf_reads w)))) in
  let start_cpu := process_time_at (oracle w) (cpu_reads w) in
  let end_cpu := process_time_at (oracle w) (S (cpu_reads w)) in
  wall_time_sec m =
    PrimFloat.add (PrimFloat.sub end_wall start_wall)
                  (PrimFloat.sub end_wall_read start_wall_read)
  /\ cpu_time_sec m = PrimFloat.sub end_cpu start_cpu
  /\ exists a plaintext ct,
       trace w' =
       (trace w
        ++ [EvStat (Path.str file_path);
            EvPerfCounter start_wall_read;
            EvRead (Path.str file_path);
            EvPerfCounter end_wall_read;
            EvPerfCounter start_wall;
            EvProcessTime start_cpu;
            EvNew a key;
            EvTokenBytes (next_random w 12);
            EvEncrypt a key (next_random w 12) plaintext;
            EvProcessTime end_cpu;
            EvPerfCounter end_wall;
            EvWrite (output_file m) ct;
            EvTime (timestamp m)])%list.
Proof.
  intros H. cbv zeta.
  destruct (run_single_encryption_Ok _ _ _ _ _ _ _ H)
    as (a & plaintext & body & _ & _ & _ & -> & ->).
  split; [reflexivity |]. split; [reflexivity |].
  exists a, plaintext, (next_random w 12 ++ body)%list.
  cbn [metrics_of output_file timestamp]. wnorm. by rewrite <- !app_assoc.
Qed.

(** C10. Under a selector that is neither "AES-GCM" nor
    "ChaCha20-Poly1305" the runner returns no record and leaves the file
    system as it found it; when the input is a readable file the
    exception is [ValueError "Unsupported cipher"], raised once the
    file has been read and the clocks started, and nothing is written. *)
Theorem unsupported_cipher (file_path : Path.t) (cipher_name : string)
    (key : bytes) (outdir : Path.t) (w : World) :
  cipher_name <> "AES-GCM" ->
  cipher_name <> "ChaCha20-Poly1305" ->
  let (r, w') :=
    run_single_encryption AESGCM ChaCha20Poly1305 file_path cipher_name key outdir w in
  (exists e, r = Raise e)
  /\ fs w' = fs w
  /\ forall plaintext,
       fs w !! Path.str file_path = Some (File plaintext) ->
       r = Raise (ValueError "Unsupported cipher")
       /\ trace w' =
          (trace w
           ++ [EvStat (Path.str file_path);
               EvPerfCounter (perf_counter_at (oracle w) (perf_reads w));
               EvRead (Path.str file_path);
               EvPerfCounter (perf_counter_at (oracle w) (S (perf_reads w)));
               EvPerfCounter (perf_counter_at (oracle w) (S (S (perf_reads w))));
               EvProcessTime (process_time_at (oracle w) (cpu_reads w))])%list.
Proof.
  intros H1 H2.
  assert (Hnone : algo_of cipher_name = None) by by apply algo_of_None.
  rewrite run_single_encryption_unfold. unfold trial_outcome. rewrite Hnone.
  destruct (fs w !! Path.str file_path) as [[plaintext |] |].
  - split; [by eexists |]. split; [reflexivity |].
    intros ? [= <-]. split; [reflexivity |]. apply at_dispatch_trace.
  - split; [by eexists |]. split; [reflexivity |]. discriminate.
  - split; [by eexists |]. split; [reflexivity |]. discriminate.
Qed.

End TrialProperties.

(** ** Relations between the world before and after a computation *)

Section Steps.

Context (R : relation World) `{!PreOrder R}.

Lemma steps_ret {A} (a : A) : steps R (ret a).
Proof. intros w. reflexivity. Qed.

Lemma steps_raise {A} (e : PyExc) : steps R (@raise A e).
Proof. intros w. reflexivity. Qed.

Lemma steps_bind {A B} (c : Py A) (k : A -> Py B) :
  steps R c -> (forall a, steps R (k a)) -> steps R (bind c k).
Proof.
  intros Hc Hk w. unfold bind. specialize (Hc w).
  destruct (c w) as [[a | e] w1]; cbn in *; [| done].
  etrans; [exact Hc | apply Hk].
Qed.

Lemma steps_try_except {A} (c : Py A) (h : PyExc -> Py A) :
  steps R c -> (forall e, steps R (h e)) -> steps R (try_except c h).
Proof.
  intros Hc Hh w. unfold try_except. specialize (Hc w).
  destruct (c w) as [[a | e] w1]; cbn in *; [done |].
  destruct (is_Exception e); [| done].
  etrans; [exact Hc | apply Hh].
Qed.

Lemma steps_fold_for {A S} (xs : list A) (body : A -> S -> Py S) (s : S) :
  (forall x s', x ∈ xs -> steps R (body x s')) -> steps R (fold_for xs body s).
Proof.
  revert s. induction xs as [| x xs IH]; intros s Hbody; cbn.
  - apply steps_ret.
  - apply steps_bind.
    + apply Hbody. by left.
    + intros s'. apply IH. intros y s'' Hy. apply Hbody. by right.
Qed.

Lemma steps_for_each {A} (xs : list A) (body : A -> Py unit) :
  (forall x, x ∈ xs -> steps R (body x)) -> steps R (for_each xs body).
Proof.
  induction xs as [| x xs IH]; intros Hbody; cbn.
  - apply steps_ret.
  - apply steps_bind.
    + apply Hbody. by left.
    + intros _. apply IH. intros y Hy. apply Hbody. by right.
Qed.

End Steps.

#[local] Instance extends_preorder (P : Event -> Prop) : PreOrder (extends P).
Proof.
  split.
  - intros w. exists []. by rewrite app_nil_r.
  - intros w1 w2 w3 (d1 & E1 & F1) (d2 & E2 & F2). exists (d1 ++ d2).
    split; [by rewrite E2, E1, app_assoc | by apply Forall_app].
Qed.


Lemma extends_one (P : Event -> Prop) (e : Event) (w w' : World) :
  trace w' = trace w ++ [e] -> P e -> extends P w w'.
Proof. intros E He. exists [e]. split; [done | by constructor]. Qed.

#[local] Instance keeps_files_preorder : PreOrder keeps_files.
Proof. split; [by intros w k | intros w1 w2 w3 H1 H2 k Hk; by apply H2, H1]. Qed.

#[local] Instance touches_fs_only_preorder : PreOrder touches_fs_only.
Proof.
  split.
  - by intros w.
  - intros w1 w2 w3 (?&?&?&?&?&?&?) (?&?&?&?&?&?&?).
    repeat split; congruence.
Qed.

(** ** Hoare triples over [Py] *)


Lemma hoare_ret {A} (a : A) (Q : Outcome A -> World -> Prop) :
  hoare (Q (Ok a)) (ret a) Q.
Proof. by intros w. Qed.


Lemma hoare_try_except {A} (P : World -> Prop) (c : Py A) (h : PyExc -> Py A)
    (M : PyExc -> World -> Prop) (Q : Outcome A -> World -> Prop) :
  hoare P c (fun r w => match r with
                        | Ok a => Q (Ok a) w
                        | Raise e => if is_Exception e then M e w else Q (Raise e) w
                        end) ->
  (forall e, hoare (M e) (h e) Q) ->
  hoare P (try_except c h) Q.
Proof.
  intros Hc Hh w Hw. specialize (Hc w Hw). unfold try_except.
  destruct (c w) as [[a | e] w1]; cbn [fst snd] in *; [done |].
  destruct (is_Exception e); [by apply Hh | done].
Qed.


Lemma steps_hoare (R : relation World) {A} (c : Py A) (w0 : World) :
  steps R c -> hoare (fun w => w = w0) c (fun _ w' => R w0 w').
Proof. intros Hc w ->. apply Hc. Qed.

(** ** What each primitive operation does to the world *)

Section Primitives.

Context (P : Event -> Prop).





Lemma process_time_extends :
  (forall t, P (EvProcessTime t)) -> steps (extends P) process_time.
Proof. intros H w. by eapply extends_one. Qed.

Lemma time_time_extends :
  (forall t, P (EvTime t)) -> steps (extends P) time_time.
Proof. intros H w. by eapply extends_one. Qed.


Lemma exists_extends (p : Path.t) :
  P (EvStat (Path.str p)) -> steps (extends P) (exists_ p).
Proof. intros H w. by eapply extends_one. Qed.

Lemma read_file_extends (p : Path.t) :
  P (EvRead (Path.str p)) -> steps (extends P) (read_file p).
Proof.
  intros H w. unfold read_file.
  destruct (fs w !! Path.str p) as [[? |] |]; by eapply extends_one.
Qed.



End Primitives.

Lemma mkdir_one_touches_fs_only (final a : Path.t) :
  steps touches_fs_only (mkdir_one final a).
Proof.
  intros w. unfold mkdir_one.
  destruct (fs w !! Path.str a) as [[? |] |]; by repeat split.
Qed.

(** [mkdir] logs one event and touches nothing but the file system. *)
Lemma mkdir_p_spec (p : Path.t) (w : World) :
  touches_fs_only (log (EvMkdir (Path.str p)) w) (mkdir_p p w).2.
Proof.
  unfold mkdir_p, bind. cbn [fst snd].
  apply (steps_for_each touches_fs_only). intros a _. apply mkdir_one_touches_fs_only.
Qed.

(** ** Files on disk *)

Lemma keeps_files_same (w w' : World) : fs w' = fs w -> keeps_files w w'.
Proof. intros E k. by rewrite E. Qed.

Lemma keeps_files_insert (w w' : World) (k : string) (data : bytes) :
  fs w' = <[k := File data]> (fs w) -> keeps_files w w'.
Proof.
  intros E k' [c Hc]. rewrite E. unfold is_file.
  destruct (decide (k = k')) as [-> |].
  - rewrite lookup_insert_eq. by eexists.
  - rewrite lookup_insert_ne by done. by eexists.
Qed.





Lemma hoare_keeps {A} (I : World -> Prop) (c : Py A) :
  fs_stable I -> steps keeps_files c -> hoare I c (fun _ w => I w).
Proof. intros HI Hc w Hw. eapply HI; [apply Hc | exact Hw]. Qed.

Lemma no_entry_error_is_Exception (m : gmap string Node) (p : Path.t)
    (shown : string) :
  is_Exception (no_entry_error m p shown) = true.
Proof. unfold no_entry_error. by destruct (below_file m p). Qed.








(** ** The trial loops *)






Lemma length_range1 (n : Z) : length (range1 n) = Z.to_nat n.
Proof. unfold range1. by rewrite length_map, length_seq. Qed.

Lemma range1_indices_NoDup (n : Z) : NoDup (map Some (range1 n)).
Proof.
  unfold range1. apply NoDup_fmap_2; [intros ? ? [=]; done |].
  apply NoDup_fmap_2; [intros ? ?; apply Nat2Z.inj | apply NoDup_seq].
Qed.

(** *** Validation of the command line *)

Lemma stat_all_eq (files : list Path.t) (w : World) :
  stat_all files w =
  mkWorld (oracle w) (fs w) (drawn w) (perf_reads w) (cpu_reads w) (time_reads w)
    (stdout w) (trace w ++ map (fun p => EvStat (Path.str p)) files).
Proof.
  revert w. induction files as [| p files IH]; intros w; cbn [stat_all fold_left map].
  - rewrite app_nil_r. by destruct w.
  - change (fold_left _ files ?w') with (stat_all files w').
    rewrite IH. cbn [log oracle fs drawn perf_reads cpu_reads time_reads stdout trace].
    by rewrite <- app_assoc.
Qed.




Lemma NoDup_flat_map {A B C} (f : A -> list B) (h : B -> C) (k : A -> C)
    (xs : list A) :
  NoDup (map k xs) -> (forall x y, y ∈ f x -> h y = k x) ->
  (forall x, NoDup (f x)) -> NoDup (flat_map f xs).
Proof.
  intros Hxs Hh Hf. induction xs as [| a xs IH]; cbn [flat_map]; [constructor |].
  cbn [map] in Hxs. apply NoDup_cons in Hxs as [Ha Hxs].
  apply NoDup_app. split; [apply Hf |]. split; [| by apply IH].
  intros y Hy Hy'. apply Ha.
  apply list_elem_of_In, in_flat_map in Hy' as (b & Hb & Hyb).
  apply list_elem_of_In in Hb, Hyb.
  rewrite <- (Hh a y Hy), (Hh b y Hyb). by apply list_elem_of_fmap_2.
Qed.

Section Orchestrator.

Variables AESGCM ChaCha20Poly1305 : AEAD.
Variable format_f : nat -> float -> string.
Variable format_fQ : nat -> Q -> string.
Variable resolve : Path.t -> Path.t.
Variable raw_csv_bytes : list Metrics -> bytes.
Variable summary_csv_bytes : list (string * Metrics) -> bytes.
Variable chart_png : string -> list (string * Metrics) -> bytes.

(** The runner raises nothing that [except Exception] lets through. *)
Lemma run_single_encryption_raises (file_path : Path.t) (cipher_name : string)
    (key : bytes) (outdir : Path.t) (w : World) (e : PyExc) :
  (run_single_encryption AESGCM ChaCha20Poly1305 file_path cipher_name key outdir w).1
  = Raise e -> is_Exception e = true.
Proof.
  rewrite run_single_encryption_unfold. unfold trial_outcome.
  repeat match goal with
         | |- context [match ?x with _ => _ end] => destruct x
         end; cbn; intros [= <-];
    first [reflexivity | apply no_entry_error_is_Exception].
Qed.

Section OneCell.

Variables (file_path : Path.t) (cipher_name : string) (key_aes key_cha : bytes)
          (outdir : Path.t) (iters : Z).

Lemma trial_unfold (i : Z) (raw_rows : list Metrics) (w : World) :
  trial AESGCM ChaCha20Poly1305 format_f file_path cipher_name key_aes key_cha
        outdir iters i raw_rows w
  = match call_runner AESGCM ChaCha20Poly1305 file_path cipher_name key_aes key_cha outdir
        (emit (iter_msg i iters) w) with
    | (Ok m, w1) =>
        (Ok (raw_rows ++ [set_iter i m]),
         emit (("done — wall " +:+ format_f 3 (wall_time_sec m)
                +:+ "s cpu " +:+ format_f 3 (cpu_time_sec m) +:+ "s")
               +:+ newline) w1)
    | (Raise e, w1) =>
        (Ok raw_rows, emit (("ERROR: " +:+ exc_str e) +:+ newline) w1)
    end.
Proof.
  unfold trial, bind at 1, print_noend, try_except, bind, call_runner.
  pose proof (run_single_encryption_raises file_path cipher_name
    (if String.eqb cipher_name "AES-GCM" then key_aes else key_cha) outdir
    (emit (iter_msg i iters) w)) as Hexc.
  destruct (run_single_encryption _ _ _ _ _ _ _) as [[m | e] w1].
  - reflexivity.
  - cbn [fst] in Hexc. by rewrite (Hexc e eq_refl).
Qed.


Lemma trial_loop_rows (indices : list Z) (raw_rows : list Metrics) (w : World) :
  (fold_for indices
     (trial AESGCM ChaCha20Poly1305 format_f file_path cipher_name key_aes key_cha
            outdir iters) raw_rows w).1
  = Ok (raw_rows ++ omap kept_row (trial_results AESGCM ChaCha20Poly1305 format_f file_path cipher_name key_aes
         key_cha outdir iters indices w)).
Proof.
  revert raw_rows w.
  induction indices as [| i indices IH]; intros raw_rows w;
    cbn [fold_for trial_results omap].
  - cbn. by rewrite app_nil_r.
  - unfold bind. rewrite (trial_unfold i []), (trial_unfold i raw_rows).
    unfold kept_row at 1. cbn [fst snd].
    destruct (call_runner AESGCM ChaCha20Poly1305 file_path cipher_name key_aes key_cha outdir
        (emit (iter_msg i iters) w)) as [[m | e] w1];
      cbn [fst snd]; rewrite IH; [| done].
    by rewrite <- app_assoc.
Qed.



End OneCell.

(** *** The whole matrix (lines 122-138) *)






Section Matrix.

Variables (key_aes key_cha : bytes) (outdir : Path.t) (iters : Z).










End Matrix.

(** *** Keys *)

Section Keys.

Variables key_aes key_cha : bytes.






End Keys.




(** *** Ciphertext files *)

Lemma run_single_encryption_fs (file_path : Path.t) (cipher_name : string)
    (key : bytes) (outdir : Path.t) (w : World) :
  match (run_single_encryption AESGCM ChaCha20Poly1305 file_path cipher_name
           key outdir w).1 with
  | Ok m =>
      exists ct,
        fs (run_single_encryption AESGCM ChaCha20Poly1305 file_path cipher_name
              key outdir w).2
        = <[output_file m := File ct]> (fs w)
  | Raise _ =>
      fs (run_single_encryption AESGCM ChaCha20Poly1305 file_path cipher_name
            key outdir w).2
      = fs w
  end.
Proof.
  rewrite run_single_encryption_unfold. unfold trial_outcome.
  destruct (fs w !! Path.str file_path) as [[plaintext |] |]; try reflexivity.
  destruct (algo_of cipher_name) as [a |]; [| reflexivity].
  destruct (check_key _ key); [reflexivity |].
  cbv zeta.
  destruct (encrypt _ key (next_random w 12) plaintext None) as [body |];
    [| cbn [fst snd]; by wnorm].
  destruct (fs w !! Path.str (out_file_of file_path cipher_name outdir))
    as [[? |] |];
    try destruct (is_dir (fs w) (Path.parent (out_file_of file_path cipher_name outdir)));
    cbn [fst snd]; wnorm; try reflexivity; by eexists.
Qed.

Lemma run_single_encryption_keeps (file_path : Path.t) (cipher_name : string)
    (key : bytes) (outdir : Path.t) :
  steps keeps_files
    (run_single_encryption AESGCM ChaCha20Poly1305 file_path cipher_name key outdir).
Proof.
  intros w. pose proof (run_single_encryption_fs file_path cipher_name key outdir w) as H.
  destruct (run_single_encryption _ _ _ _ _ _ w) as [[m | e] w1]; cbn [fst snd] in *.
  - destruct H as [ct H]. by eapply keeps_files_insert.
  - by apply keeps_files_same.
Qed.




Section Files.

Variables (files : list Path.t) (outdir : Path.t).






End Files.


(** *** main *)

Lemma missing_of_unfold (files : list Path.t) (w : World) :
  missing_of files w = (Ok (missing_in (fs w) files), stat_all files w).
Proof.
  revert w. induction files as [| p files IH]; intros w; [reflexivity |].
  cbn [missing_of]. unfold bind at 1, exists_. unfold bind at 1. rewrite IH.
  unfold missing_in, absent. cbn [log fs List.filter stat_all fold_left ret].
  by destruct (bool_decide (is_Some (fs w !! Path.str p))).
Qed.


End Orchestrator.

(** * Further properties *)

(** ** human_bytes (lines 47-52) *)

Section HumanBytes.

Variable format_fQ : nat -> Q -> string.

Lemma human_bytes_from_unit (units : list string) (q : Q) :
  exists k,
    k <= length units
    /\ human_bytes_from format_fQ units q
       = format_fQ 2 (Nat.iter k (fun q => (q / 1024)%Q) q) +:+ nth k units "PB"
    /\ (k < length units -> (Nat.iter k (fun q => (q / 1024)%Q) q < 1024)%Q)
    /\ (forall j, j < k -> (1024 <= Nat.iter j (fun q => (q / 1024)%Q) q)%Q).
Proof.
  revert q. induction units as [| unit units IH]; intros q.
  - exists 0. cbn. repeat split; lia.
  - cbn [human_bytes_from].
    destruct (Qltb q 1024) eqn:Hq.
    + exists 0. cbn. split; [lia |]. split; [done |].
      split; [intros _; by apply Qltb_lt | lia].
    + destruct (IH (q / 1024)%Q) as (k & Hk & Hres & Hlt & Hge).
      exists (S k). rewrite Nat.iter_succ_r. cbn [length nth].
      split; [lia |]. split; [exact Hres |].
      split; [intros ?; apply Hlt; lia |].
      intros [| j] Hj.
      * cbn. apply Qnot_lt_le. intros Hlt'. apply Qltb_lt in Hlt'. congruence.
      * rewrite Nat.iter_succ_r. apply Hge. lia.
Qed.

Lemma scaled_quotient (n : Z) (k : nat) :
  (scaled n k == inject_Z n / inject_Z (1024 ^ Z.of_nat k))%Q.
Proof.
  unfold scaled. induction k as [| k IH].
  - change (inject_Z n == inject_Z n / 1)%Q. field.
  - cbn [Nat.iter].
    assert (H : ~ (inject_Z (1024 ^ Z.of_nat k) == 0)%Q).
    { change 0%Q with (inject_Z 0). rewrite inject_Z_injective.
      apply Z.pow_nonzero; lia. }
    etransitivity; [apply Qdiv_comp; [exact IH | reflexivity] |].
    rewrite Nat2Z.inj_succ, Z.pow_succ_r, inject_Z_mult by lia.
    change (inject_Z 1024) with 1024%Q.
    field. exact H.
Qed.

(** X1. [human_bytes] divides by 1024 as often as needed, at most five
    times: the unit is the first of B, KB, MB, GB, TB for which the
    scaled size is below 1024, and PB when none is; the number printed
    is the size over that power of 1024, with two decimals. *)
Theorem human_bytes_unit (n : Z) :
  exists k,
    k <= 5
    /\ human_bytes format_fQ n = format_fQ 2 (scaled n k) +:+ nth k byte_units "PB"
    /\ (scaled n k == inject_Z n / inject_Z (1024 ^ Z.of_nat k))%Q
    /\ (k < 5 -> (scaled n k < 1024)%Q)
    /\ (forall j, j < k -> (1024 <= scaled n j)%Q).
Proof.
  destruct (human_bytes_from_unit byte_units (inject_Z n))
    as (k & Hk & Hres & Hlt & Hge).
  exists k. split; [exact Hk |]. split; [exact Hres |].
  split; [apply scaled_quotient |]. split; [exact Hlt | exact Hge].
Qed.

End HumanBytes.

(** ** cleanup (lines 209-216) *)





(** ** Path strings *)

Lemma append_nil_r (a : string) : a +:+ "" = a.
Proof.
  induction a as [| c a IH]; [done |].
  change (String c a +:+ "") with (String c (a +:+ "")). by rewrite IH.
Qed.

Lemma append_assoc (a b c : string) : (a +:+ b) +:+ c = a +:+ (b +:+ c).
Proof.
  induction a as [| x a IH]; [done |].
  change ((String x a +:+ b) +:+ c) with (String x ((a +:+ b) +:+ c)).
  by rewrite IH.
Qed.

Lemma split_slash_cons (s : string) : exists w ws, split_slash s = w :: ws.
Proof.
  induction s as [| c s (w & ws & IH)]; cbn; [by eexists _, _ |].
  destruct (Ascii.eqb c "/"); [by eexists _, _ |]. rewrite IH. by eexists _, _.
Qed.

Lemma split_slash_app (a b : string) :
  split_slash (a +:+ String "/" b) = split_slash a ++ split_slash b.
Proof.
  induction a as [| c a IH]; [done |].
  change (String c a +:+ String "/" b) with (String c (a +:+ String "/" b)).
  cbn [split_slash]. rewrite IH.
  destruct (Ascii.eqb c "/"); [done |].
  by destruct (split_slash_cons a) as (w & ws & ->).
Qed.

Lemma base_app (a x : string) :
  has_slash x = false -> base (a +:+ String "/" x) = x.
Proof.
  intros Hx. unfold base. rewrite split_slash_app, (split_slash_plain x Hx).
  apply last_last.
Qed.

Lemma concat_snoc (ps : list string) (x : string) :
  String.concat "/" (ps ++ [x])
  = match ps with
    | [] => x
    | _ => String.concat "/" ps +:+ String "/" x
    end.
Proof.
  induction ps as [| p ps IH]; [done |].
  cbn [app]. destruct ps as [| p' ps].
  - done.
  - change (String.concat "/" (p :: (p' :: ps) ++ [x]))
      with (p +:+ "/" +:+ String.concat "/" ((p' :: ps) ++ [x])).
    rewrite IH.
    change (String.concat "/" (p :: p' :: ps))
      with (p +:+ "/" +:+ String.concat "/" (p' :: ps)).
    by rewrite !append_assoc.
Qed.

Lemma of_str_root (s : string) : posix_root (Path.root (Path.of_str s)).
Proof.
  unfold posix_root, Path.of_str. cbn [Path.root].
  destruct (leading_slashes s) as [| [| [| n]]]; auto.
Qed.

(** The string of a path ends with its last component. *)
Lemma base_str_snoc (r : string) (ps : list string) (x : string) :
  posix_root r -> has_slash x = false ->
  base (Path.str (Path.mk r (ps ++ [x]))) = x.
Proof.
  intros Hr Hx.
  assert (Hstr : Path.str (Path.mk r (ps ++ [x])) = r +:+ String.concat "/" (ps ++ [x])).
  { unfold Path.str. cbn [Path.root Path.parts].
    destruct r; [| done]. by destruct ps. }
  rewrite Hstr, concat_snoc. destruct ps as [| p ps].
  - destruct Hr as [-> | [-> | ->]].
    + unfold base. by rewrite split_slash_plain.
    + apply (base_app "" x Hx).
    + apply (base_app "/" x Hx).
  - rewrite <- append_assoc. by apply base_app.
Qed.

Lemma base_str_of_str (s : string) :
  base (Path.str (Path.of_str s)) = Path.name (Path.of_str s)
  \/ base (Path.str (Path.of_str s)) = "."
  \/ base (Path.str (Path.of_str s)) = "".
Proof.
  pose proof (name_of_str_plain s) as Hname.
  pose proof (of_str_root s) as Hroot.
  destruct (Path.of_str s) as [r ps]. cbn [Path.root] in Hroot.
  unfold Path.name in *. cbn [Path.parts] in *.
  destruct (decide (ps = [])) as [-> | Hne].
  - right. destruct Hroot as [-> | [-> | ->]]; cbn; auto.
  - left. rewrite (app_removelast_last "" Hne) at 1.
    by apply base_str_snoc.
Qed.

(** The last component of an output path (line 91). *)
Lemma out_component_proper (n c : string) :
  let x := n +:+ "." +:+ c +:+ ".ct" in
  x <> "" /\ x <> "." /\ x <> n.
Proof.
  cbv zeta. split; [by destruct n |]. split.
  - destruct n as [| a [| b n]]; cbn; [by destruct c | done | done].
  - intros H. rewrite <- (append_nil_r n) in H at 2.
    by apply (inj (append n)) in H.
Qed.

Lemma out_file_parts (s cipher_name : string) (outdir : Path.t) :
  has_slash cipher_name = false ->
  out_file_of (Path.of_str s) cipher_name outdir
  = Path.mk (Path.root outdir)
      (Path.parts outdir
       ++ [Path.name (Path.of_str s) +:+ "." +:+ remove_spaces cipher_name +:+ ".ct"]).
Proof.
  intros Hc. unfold out_file_of, Path.join.
  rewrite of_str_component; [done | | |].
  - rewrite !has_slash_app, name_of_str_plain, has_slash_remove_spaces by done. done.
  - apply out_component_proper.
  - apply out_component_proper.
Qed.

(** The output path of a trial is never its input path. *)
Lemma out_file_not_input (s o cipher_name : string) :
  has_slash cipher_name = false ->
  Path.str (out_file_of (Path.of_str s) cipher_name (Path.of_str o))
  <> Path.str (Path.of_str s).
Proof.
  intros Hc Heq.
  pose proof (out_component_proper (Path.name (Path.of_str s))
                (remove_spaces cipher_name)) as (Hne & Hdot & Hname).
  cbv zeta in *.
  assert (Hbase : base (Path.str (out_file_of (Path.of_str s) cipher_name
                                              (Path.of_str o)))
                  = Path.name (Path.of_str s) +:+ "."
                    +:+ remove_spaces cipher_name +:+ ".ct").
  { rewrite out_file_parts by done. apply base_str_snoc; [apply of_str_root |].
    rewrite !has_slash_app, name_of_str_plain, has_slash_remove_spaces by done.
    done. }
  rewrite Heq in Hbase.
  destruct (base_str_of_str s) as [H | [H | H]]; rewrite H in Hbase; congruence.
Qed.

(** ** One trial, continued (lines 66-104) *)

Section TrialEffects.

Variables AESGCM ChaCha20Poly1305 : AEAD.



(** X4. The file a successful trial writes can be decrypted back to the
    input: under a 256-bit key and a sound primitive, the output path
    holds the nonce followed by the ciphertext, and decrypting with the
    first 12 bytes as nonce gives the content read from the input.  The
    record reports the length of that content as bytes processed, and
    as file size what the size lookup answered. *)
Theorem trial_output_decrypts (file_path : Path.t) (cipher_name : string)
    (key : bytes) (outdir : Path.t) (w w' : World) (m : Metrics) (a : Algo) :
  run_single_encryption AESGCM ChaCha20Poly1305 file_path cipher_name key outdir w
  = (Ok m, w') ->
  algo_of cipher_name = Some a ->
  length key = 32 ->
  aead_sound (primitive AESGCM ChaCha20Poly1305 a) ->
  exists plaintext ct,
    fs w !! Path.str file_path = Some (File plaintext)
    /\ fs w' !! output_file m = Some (File ct)
    /\ decrypt (primitive AESGCM ChaCha20Poly1305 a) key (take 12 ct) (drop 12 ct) None
       = Returns plaintext
    /\ bytes_processed m = Z.of_nat (length plaintext)
    /\ filesize_bytes m
       = st_size_at (oracle w) (Path.str file_path) (File plaintext).
Proof.
  intros Hrun Ha Hkey Hsound.
  apply run_single_encryption_Ok in Hrun
    as (a' & plaintext & body & Hfile & Ha' & Henc & -> & ->).
  assert (a' = a) as -> by congruence.
  destruct (Hsound key (next_random w 12) plaintext Hkey (next_random_length w 12))
    as (ct0 & Henc0 & Hdec).
  assert (ct0 = body) as -> by congruence.
  exists plaintext, (next_random w 12 ++ body).
  split; [exact Hfile |]. split.
  { wnorm. cbn [metrics_of output_file]. apply lookup_insert_eq. }
  split; [| by split].
  rewrite take_app_length', drop_app_length'
    by (symmetry; apply next_random_length).
  exact Hdec.
Qed.

(** X5. The path a trial writes to is never spelled like the path it
    reads: for both ciphers and every input and output directory given
    on the command line, the name of the output path is the name of
    the input followed by a dot, the cipher name and [.ct], and the
    two path strings differ. *)
Theorem output_path_differs (input out : string) :
  Forall (fun c =>
            Path.name (out_file_of (Path.of_str input) c (Path.of_str out))
            = Path.name (Path.of_str input) +:+ "." +:+ c +:+ ".ct"
            /\ Path.str (out_file_of (Path.of_str input) c (Path.of_str out))
               <> Path.str (Path.of_str input))
         ciphers.
Proof.
  unfold ciphers.
  repeat (constructor;
          [split; [by apply out_file_name | by apply out_file_not_input] |]).
  constructor.
Qed.

End TrialEffects.

(** ** The loops, continued (lines 122-138) *)

Lemma grows_fold_for {A} (g : A -> list (string * string * option Z))
    (xs : list A) (body : A -> list Metrics -> Py (list Metrics)) :
  (forall x s w, x ∈ xs -> grows (g x) s (body x s w).1) ->
  forall s w, grows (flat_map g xs) s (fold_for xs body s w).1.
Proof.
  induction xs as [| x xs IH]; intros Hbody s w; cbn [fold_for flat_map].
  - exists []. split; [by rewrite app_nil_r | constructor].
  - unfold bind. pose proof (Hbody x s w ltac:(by left)) as Hx.
    destruct (body x s w) as [[s1 | e] w1]; cbn [fst] in Hx; [| done].
    destruct Hx as (new1 & -> & Hsub1).
    assert (Hrest : grows (flat_map g xs) (s ++ new1)
                      (fold_for xs body (s ++ new1) w1).1).
    { apply IH. intros y s' w' Hy. apply Hbody. by right. }
    destruct (fold_for xs body (s ++ new1) w1) as [[s2 | e] w2];
      cbn [fst] in *; [| done].
    destruct Hrest as (new2 & -> & Hsub2).
    exists (new1 ++ new2). split; [by rewrite app_assoc |].
    rewrite map_app. by apply sublist_app.
Qed.

Lemma grows_bind {B} (ks : list (string * string * option Z)) (s : list Metrics)
    (c : Py B) (k : B -> Py (list Metrics)) (w : World) :
  (forall b w', grows ks s (k b w').1) -> grows ks s (bind c k w).1.
Proof. intros Hk. unfold bind. destruct (c w) as [[b | e] w1]; [apply Hk | done]. Qed.

Lemma length_flat_map_const {A B} (f : A -> list B) (n : nat) (xs : list A) :
  (forall x, length (f x) = n) -> length (flat_map f xs) = length xs * n.
Proof.
  intros Hf. induction xs as [| a xs IH]; cbn [flat_map length]; [done |].
  rewrite length_app, IH, Hf. lia.
Qed.

Lemma range1_NoDup (n : Z) : NoDup (range1 n).
Proof.
  pose proof (range1_indices_NoDup n) as H.
  by apply (NoDup_fmap_1 Some) in H.
Qed.

Lemma matrix_length (files : list Path.t) (iters : Z) :
  length (matrix files iters) = length files * (2 * Z.to_nat iters).
Proof.
  unfold matrix. apply length_flat_map_const. intros f.
  cbn [ciphers flat_map]. rewrite !length_app. cbn [length].
  unfold cell_keys. rewrite !length_map, length_range1. lia.
Qed.

Lemma matrix_NoDup (files : list Path.t) (iters : Z) :
  NoDup (map Path.str files) -> NoDup (matrix files iters).
Proof.
  intros Hfiles. unfold matrix.
  apply (NoDup_flat_map _ (fun k => k.1.1) Path.str); [done | |].
  - intros f y Hy.
    apply list_elem_of_In, in_flat_map in Hy as (c & _ & Hy).
    apply in_map_iff in Hy as (i & <- & _). done.
  - intros f.
    apply (NoDup_flat_map _ (fun k => k.1.2) id).
    + rewrite map_id. unfold ciphers.
      apply NoDup_cons. split; [| apply NoDup_singleton].
      by intros [= ]%list_elem_of_singleton.
    + intros c y Hy. apply list_elem_of_In, in_map_iff in Hy as (i & <- & _). done.
    + intros c. unfold cell_keys.
      apply NoDup_fmap_2; [| apply range1_NoDup].
      by intros i j [= ].
Qed.

Section Loops.

Variables AESGCM ChaCha20Poly1305 : AEAD.
Variable format_f : nat -> float -> string.
Variable format_fQ : nat -> Q -> string.
Variable resolve : Path.t -> Path.t.


Section Cell.

Variables (file_path : Path.t) (cipher_name : string) (key_aes key_cha : bytes)
          (outdir : Path.t) (iters : Z).



Lemma trial_loop_keys (indices : list Z) (w : World) :
  sublist
    (map row_key
       (omap kept_row
          (trial_results AESGCM ChaCha20Poly1305 format_f file_path cipher_name
             key_aes key_cha outdir iters indices w)))
    (map (fun i => (Path.str file_path, cipher_name, Some i)) indices).
Proof.
  revert w. induction indices as [| i indices IH]; intros w;
    cbn [trial_results omap map].
  - constructor.
  - unfold kept_row at 1. cbn [fst snd].
    destruct (call_runner AESGCM ChaCha20Poly1305 file_path cipher_name key_aes
                key_cha outdir (emit (iter_msg i iters) w)) as [[m | e] w1] eqn:Hrun;
      cbn [fst map]; [| apply sublist_cons, IH].
    apply run_single_encryption_Ok in Hrun
      as (a & plaintext & body & _ & _ & _ & -> & _).
    apply sublist_skip, IH.
Qed.

End Cell.

Lemma run_matrix_grows (files : list Path.t) (key_aes key_cha : bytes)
    (outdir : Path.t) (iters : Z) (w : World) :
  grows (matrix files iters) []
    (run_matrix AESGCM ChaCha20Poly1305 format_f format_fQ files key_aes key_cha
                outdir iters w).1.
Proof.
  unfold run_matrix, matrix. apply grows_fold_for.
  intros f rows w1 _. unfold file_loop.
  apply grows_bind. intros size w2. apply grows_bind. intros _ w3.
  apply grows_fold_for. intros c rows' w4 _. unfold cipher_loop.
  apply grows_bind. intros _ w5.
  rewrite trial_loop_rows. eexists. split; [reflexivity |].
  apply trial_loop_keys.
Qed.

Lemma collect_grows (files : list Path.t) (iters : Z) (outdir : Path.t)
    (w : World) :
  grows (matrix files iters) []
    (collect AESGCM ChaCha20Poly1305 format_f format_fQ resolve
             files iters outdir w).1.
Proof.
  unfold collect.
  apply grows_bind. intros _ w1. apply grows_bind. intros key_aes w2.
  apply grows_bind. intros key_cha w3. apply grows_bind. intros _ w4.
  apply grows_bind. intros _ w5. apply grows_bind. intros start_all w6.
  unfold bind at 1.
  pose proof (run_matrix_grows files key_aes key_cha outdir iters w6) as Hm.
  destruct (run_matrix _ _ _ _ _ _ _ _ _ w6) as [[rows | e] w7];
    cbn [fst] in Hm; [| done].
  exact Hm.
Qed.

(** X7. The raw table is in the order of the three loops: the (file,
    cipher, iter) keys of its rows are picked, in order, from the list
    of all trials, files outermost, then the two ciphers, then the
    indices 1..N.  So there are at most (number of files) x 2 x N rows,
    and no key occurs twice when the input paths are distinct. *)
Theorem rows_in_matrix_order (files : list Path.t) (iters : Z) (outdir : Path.t)
    (w : World) :
  let rows :=
    rows_of (collect AESGCM ChaCha20Poly1305 format_f format_fQ resolve
                     files iters outdir w).1 in
  sublist (map row_key rows) (matrix files iters)
  /\ length rows <= length files * (2 * Z.to_nat iters)
  /\ (NoDup (map Path.str files) -> NoDup (map row_key rows)).
Proof.
  intros rows.
  assert (Hsub : sublist (map row_key rows) (matrix files iters)).
  { subst rows. pose proof (collect_grows files iters outdir w) as H.
    destruct (collect _ _ _ _ _ _ _ _ w) as [[rows | e] w'];
      cbn [fst rows_of] in *.
    - by destruct H as (new & -> & H).
    - apply sublist_nil_l. }
  split; [exact Hsub |]. split.
  - rewrite <- matrix_length, <- (length_map row_key rows).
    by apply sublist_length.
  - intros Hfiles. eapply sublist_NoDup; [| exact Hsub]. by apply matrix_NoDup.
Qed.

End Loops.

(** ** Every operation of a run *)

(** What holds of every operation a run performs holds of the run. *)
Section Everywhere.

Context (R : relation World) `{!PreOrder R}.

Variables AESGCM ChaCha20Poly1305 : AEAD.
Variable format_f : nat -> float -> string.
Variable format_fQ : nat -> Q -> string.
Variable resolve : Path.t -> Path.t.
Variable raw_csv_bytes : list Metrics -> bytes.
Variable summary_csv_bytes : list (string * Metrics) -> bytes.
Variable chart_png : string -> list (string * Metrics) -> bytes.

Hypothesis R_print : forall s, steps R (print s).
Hypothesis R_print_noend : forall s, steps R (print_noend s).
Hypothesis R_token_bytes : forall n, steps R (token_bytes n).
Hypothesis R_perf_counter : steps R perf_counter.
Hypothesis R_stat_size : forall p, steps R (stat_size p).
Hypothesis R_write_file : forall p data, steps R (write_file p data).
Hypothesis R_os_remove : forall f, steps R (os_remove f).
Hypothesis R_mkdir_p : forall p, steps R (mkdir_p p).
Hypothesis R_runner :
  forall file_path cipher_name key outdir,
    steps R (run_single_encryption AESGCM ChaCha20Poly1305 file_path cipher_name
               key outdir).

Lemma trial_steps (file_path : Path.t) (cipher_name : string)
    (key_aes key_cha : bytes) (outdir : Path.t) (iters i : Z)
    (raw_rows : list Metrics) :
  steps R (trial AESGCM ChaCha20Poly1305 format_f file_path cipher_name
                 key_aes key_cha outdir iters i raw_rows).
Proof.
  unfold trial.
  apply steps_bind; [apply _ | apply R_print_noend |]. intros _.
  apply steps_try_except; [apply _ | |].
  - apply steps_bind; [apply _ | apply R_runner |].
    intros m. apply steps_bind; [apply _ | apply R_print |].
    intros _. apply steps_ret, _.
  - intros e. apply steps_bind; [apply _ | apply R_print |].
    intros _. apply steps_ret, _.
Qed.

Lemma run_matrix_steps (files : list Path.t) (key_aes key_cha : bytes)
    (outdir : Path.t) (iters : Z) :
  steps R (run_matrix AESGCM ChaCha20Poly1305 format_f format_fQ files
                      key_aes key_cha outdir iters).
Proof.
  unfold run_matrix. apply steps_fold_for; [apply _ |].
  intros file_path rows _. unfold file_loop.
  apply steps_bind; [apply _ | apply R_stat_size |]. intros size.
  apply steps_bind; [apply _ | apply R_print |]. intros _.
  apply steps_fold_for; [apply _ |].
  intros cipher_name rows' _. unfold cipher_loop.
  apply steps_bind; [apply _ | apply R_print |]. intros _.
  apply steps_fold_for; [apply _ |]. intros i rows'' _. apply trial_steps.
Qed.

Lemma report_steps (outdir : Path.t) (raw_rows : list Metrics) :
  steps R (report raw_csv_bytes summary_csv_bytes chart_png outdir raw_rows).
Proof.
  unfold report.
  repeat first
    [ apply steps_bind; [apply _ | | intros ?]
    | apply R_write_file
    | apply R_print
    | apply steps_ret, _
    | apply steps_raise, _
    | destruct raw_rows ].
Qed.

Lemma cleanup_steps (keep_outputs : bool) (raw_rows : list Metrics) :
  steps R (cleanup keep_outputs raw_rows).
Proof.
  unfold cleanup. destruct keep_outputs; cbn [negb]; [apply steps_ret, _ |].
  apply steps_bind; [apply _ | apply R_print |]. intros _.
  apply steps_for_each; [apply _ |]. intros f _.
  apply steps_try_except; [apply _ | apply R_os_remove |].
  intros e. apply steps_ret, _.
Qed.

Lemma collect_steps (files : list Path.t) (iters : Z) (outdir : Path.t) :
  steps R (collect AESGCM ChaCha20Poly1305 format_f format_fQ resolve
                   files iters outdir).
Proof.
  unfold collect.
  apply steps_bind; [apply _ | apply R_mkdir_p |]. intros _.
  apply steps_bind; [apply _ | apply R_token_bytes |]. intros key_aes.
  apply steps_bind; [apply _ | apply R_token_bytes |]. intros key_cha.
  apply steps_bind; [apply _ | apply R_print |]. intros _.
  apply steps_bind; [apply _ | apply R_print |]. intros _.
  apply steps_bind; [apply _ | apply R_perf_counter |]. intros start_all.
  apply steps_bind; [apply _ | apply run_matrix_steps |]. intros raw_rows.
  apply steps_bind; [apply _ | apply R_perf_counter |]. intros end_all.
  apply steps_bind; [apply _ | apply R_print |]. intros _.
  apply steps_ret, _.
Qed.

Lemma benchmark_steps (files : list Path.t) (iters : Z) (outdir : Path.t)
    (keep_outputs : bool) :
  steps R (benchmark AESGCM ChaCha20Poly1305 format_f format_fQ resolve
                     raw_csv_bytes summary_csv_bytes chart_png
                     files iters outdir keep_outputs).
Proof.
  unfold benchmark.
  apply steps_bind; [apply _ | apply collect_steps |]. intros raw_rows.
  apply steps_bind; [apply _ | apply report_steps |]. intros _.
  apply steps_bind; [apply _ | apply cleanup_steps |]. intros _.
  apply R_print.
Qed.

End Everywhere.

(** ** Nonces (lines 54-63 within a run) *)

Lemma nonce_paired_app (d1 d2 : list Event) :
  nonce_paired d1 -> nonce_paired d2 -> nonce_paired (d1 ++ d2).
Proof.
  intros H1 H2. induction H1 as [| a key nonce data rest Hlen _ IH | e rest He _ IH];
    cbn [app]; [done | by apply np_pair | by apply np_other].
Qed.

Lemma nonce_paired_before (d : list Event) :
  nonce_paired d ->
  forall pre a key nonce data post,
    d = pre ++ EvEncrypt a key nonce data :: post ->
    length nonce = 12 /\ exists pre', pre = pre' ++ [EvTokenBytes nonce].
Proof.
  induction 1 as [| a0 key0 nonce0 data0 rest Hlen _ IH | e rest He _ IH];
    intros pre a key nonce data post Heq.
  - by destruct pre.
  - destruct pre as [| e1 [| e2 pre]]; cbn [app] in Heq.
    + discriminate.
    + injection Heq as <- <- <- <- <- <-. split; [done | by exists []].
    + injection Heq as <- <- Heq.
      destruct (IH _ _ _ _ _ _ Heq) as (Hn & pre' & ->).
      split; [done |]. by exists (EvTokenBytes nonce0 :: EvEncrypt a0 key0 nonce0 data0 :: pre').
  - destruct pre as [| e1 pre]; cbn [app] in Heq.
    + injection Heq as ->. discriminate.
    + injection Heq as <- Heq.
      destruct (IH _ _ _ _ _ _ Heq) as (Hn & pre' & ->).
      split; [done |]. by exists (e :: pre').
Qed.

Lemma drawn_bytes_app (d1 d2 : list Event) :
  drawn_bytes (d1 ++ d2) = drawn_bytes d1 ++ drawn_bytes d2.
Proof. apply flat_map_app. Qed.

Lemma next_random_app (w w1 : World) (n m : nat) :
  oracle w1 = oracle w -> drawn w1 = drawn w + n ->
  next_random w (n + m) = next_random w n ++ next_random w1 m.
Proof.
  intros Ho Hd. unfold next_random. by rewrite Ho, Hd, seq_app, map_app.
Qed.

#[local] Instance fresh_draws_preorder : PreOrder fresh_draws.
Proof.
  split.
  - intros w. split; [done |]. exists [].
    split; [by rewrite app_nil_r |]. split; [constructor |].
    split; [cbn; lia | done].
  - intros w1 w2 w3 (O1 & d1 & E1 & N1 & D1 & B1) (O2 & d2 & E2 & N2 & D2 & B2).
    split; [congruence |]. exists (d1 ++ d2).
    split; [by rewrite E2, E1, app_assoc |].
    split; [by apply nonce_paired_app |].
    rewrite drawn_bytes_app, length_app.
    split; [lia |].
    rewrite (next_random_app w1 w2 _ _ O1 D1). congruence.
Qed.

(** A step that neither draws nor encrypts. *)
Lemma fresh_draws_quiet (d : list Event) (w w' : World) :
  oracle w' = oracle w -> drawn w' = drawn w -> trace w' = trace w ++ d ->
  forallb (fun e => negb (is_encrypt e) && negb (is_draw e)) d = true ->
  fresh_draws w w'.
Proof.
  intros Ho Hd Ht Hq. split; [done |]. exists d. split; [done |].
  assert (H : nonce_paired d /\ drawn_bytes d = []).
  { clear Ht. induction d as [| e d IH]; [by split; [constructor |] |].
    cbn [forallb] in Hq. apply andb_prop in Hq as [He Hq].
    destruct (IH Hq) as [IH1 IH2]. split.
    - apply np_other; [by destruct e | done].
    - cbn [drawn_bytes flat_map]. fold (drawn_bytes d). rewrite IH2.
      by destruct e. }
  destruct H as [Hn ->]. split; [done |]. split; [cbn; lia | done].
Qed.

Lemma fresh_draws_fs_only (w w' : World) : touches_fs_only w w' -> fresh_draws w w'.
Proof.
  intros (Ho & Hd & _ & _ & _ & _ & Ht).
  apply (fresh_draws_quiet []); [done | done | by rewrite app_nil_r | done].
Qed.

Section Nonces.

Variables AESGCM ChaCha20Poly1305 : AEAD.
Variable format_f : nat -> float -> string.
Variable format_fQ : nat -> Q -> string.
Variable resolve : Path.t -> Path.t.
Variable raw_csv_bytes : list Metrics -> bytes.
Variable summary_csv_bytes : list (string * Metrics) -> bytes.
Variable chart_png : string -> list (string * Metrics) -> bytes.

Lemma token_bytes_fresh (n : nat) : steps fresh_draws (token_bytes n).
Proof.
  intros w.
  change (token_bytes n w).2
    with (log (EvTokenBytes (next_random w n)) (set_drawn (drawn w + n) w)).
  split; [done |].
  exists [EvTokenBytes (next_random w n)]. split; [done |].
  split; [by apply np_other; [| constructor] |].
  unfold drawn_bytes. cbn [flat_map]. rewrite app_nil_r, next_random_length.
  by split.
Qed.

Lemma log_fresh (e : Event) (w : World) :
  negb (is_encrypt e) && negb (is_draw e) = true -> fresh_draws w (log e w).
Proof.
  intros He. apply (fresh_draws_quiet [e]); [done | done | done |].
  cbn [forallb]. by rewrite He.
Qed.

Lemma at_dispatch_fresh (file_path : Path.t) (w : World) :
  fresh_draws w (at_dispatch file_path w).
Proof.
  rewrite at_dispatch_eq. eapply fresh_draws_quiet; wproj; done.
Qed.

Lemma after_adapter_fresh (a : Algo) (key plaintext : bytes) (w : World) :
  fresh_draws w (after_adapter a key plaintext w).
Proof.
  rewrite after_adapter_eq. split; [by wproj |].
  exists [EvNew a key; EvTokenBytes (next_random w 12);
          EvEncrypt a key (next_random w 12) plaintext].
  split; [by wproj |]. split.
  - apply np_other; [done |].
    apply np_pair; [apply next_random_length | constructor].
  - cbn [drawn_bytes flat_map app]. rewrite !app_nil_r, next_random_length.
    split; [by wproj | done].
Qed.

Lemma at_write_fresh (out : Path.t) (ct : bytes) (w : World) :
  fresh_draws w (at_write out ct w).
Proof. rewrite at_write_eq. eapply fresh_draws_quiet; wproj; done. Qed.

Lemma completed_fresh (out : Path.t) (ct : bytes) (w : World) :
  fresh_draws w (completed out ct w).
Proof. rewrite completed_eq. eapply fresh_draws_quiet; wproj; done. Qed.

Lemma run_single_encryption_fresh (file_path : Path.t) (cipher_name : string)
    (key : bytes) (outdir : Path.t) :
  steps fresh_draws
    (run_single_encryption AESGCM ChaCha20Poly1305 file_path cipher_name key outdir).
Proof.
  intros w. rewrite run_single_encryption_unfold. unfold trial_outcome.
  destruct (fs w !! Path.str file_path) as [[plaintext |] |]; cbn [snd].
  2: { etrans; [by apply (log_fresh (EvStat (Path.str file_path))) |].
       etrans; [| by apply log_fresh].
       etrans; [| by apply log_fresh].
       by eapply (fresh_draws_quiet []); [| | rewrite app_nil_r |]. }
  2: { by apply log_fresh. }
  pose proof (at_dispatch_fresh file_path w) as H1.
  destruct (algo_of cipher_name) as [a |]; cbn [snd]; [| done].
  destruct (check_key _ key); cbn [snd].
  { etrans; [exact H1 | by apply log_fresh]. }
  assert (H2 : fresh_draws w (after_adapter a key plaintext (at_dispatch file_path w)))
    by (etrans; [exact H1 | apply after_adapter_fresh]).
  destruct (encrypt _ key (next_random w 12) plaintext None) as [body |];
    cbn [snd]; [| done].
  destruct (fs w !! Path.str (out_file_of file_path cipher_name outdir))
    as [[? |] |];
    try destruct (is_dir (fs w) (Path.parent (out_file_of file_path cipher_name outdir)));
    cbn [snd];
    lazymatch goal with
    | |- fresh_draws _ (completed ?o ?c ?x) =>
        exact (transitivity H2 (completed_fresh o c x))
    | |- fresh_draws _ (at_write ?o ?c ?x) =>
        exact (transitivity H2 (at_write_fresh o c x))
    end.
Qed.

Lemma quiet_fresh {A} (c : Py A) :
  (forall w, exists d,
     oracle (c w).2 = oracle w /\ drawn (c w).2 = drawn w
     /\ trace (c w).2 = trace w ++ d
     /\ forallb (fun e => negb (is_encrypt e) && negb (is_draw e)) d = true) ->
  steps fresh_draws c.
Proof.
  intros H w. destruct (H w) as (d & Ho & Hd & Ht & Hq).
  by eapply fresh_draws_quiet.
Qed.

(** X8. Over a whole run of [benchmark], whatever its outcome, every
    encryption uses as nonce the 12 bytes drawn from the random source
    immediately before it, and the draws of the run (the two keys and
    the nonces) read the random source onwards from where it stood,
    each position once: no nonce is fixed, derived from a counter or
    taken from an earlier draw. *)
Theorem nonces_fresh (files : list Path.t) (iters : Z) (outdir : Path.t)
    (keep_outputs : bool) (w : World) :
  let w' := (benchmark AESGCM ChaCha20Poly1305 format_f format_fQ resolve
               raw_csv_bytes summary_csv_bytes chart_png
               files iters outdir keep_outputs w).2 in
  exists d,
    trace w' = trace w ++ d
    /\ (forall pre a key nonce data post,
          d = pre ++ EvEncrypt a key nonce data :: post ->
          length nonce = 12 /\ exists pre', pre = pre' ++ [EvTokenBytes nonce])
    /\ drawn_bytes d = next_random w (length (drawn_bytes d))
    /\ drawn w' = drawn w + length (drawn_bytes d).
Proof.
  intros w'.
  assert (H : fresh_draws w w').
  { apply (benchmark_steps fresh_draws).
    - intros s. apply quiet_fresh. intros w0. exists []. cbn.
      by rewrite app_nil_r.
    - intros s. apply quiet_fresh. intros w0. exists []. cbn.
      by rewrite app_nil_r.
    - apply token_bytes_fresh.
    - apply quiet_fresh. intros w0. by eexists [_].
    - intros p. apply quiet_fresh. intros w0. exists [EvStat (Path.str p)].
      unfold stat_size. by destruct (fs w0 !! Path.str p) as [[? |] |].
    - intros p data. apply quiet_fresh. intros w0.
      exists [EvWrite (Path.str p) data]. unfold write_file.
      destruct (fs w0 !! Path.str p) as [[? |] |];
        try destruct (is_dir (fs w0) (Path.parent p)); done.
    - intros f. apply quiet_fresh. intros w0. exists [EvRemove f].
      unfold os_remove. by destruct (fs w0 !! f) as [[? |] |].
    - intros p w0. etrans; [by apply (log_fresh (EvMkdir (Path.str p))) |].
      apply fresh_draws_fs_only, mkdir_p_spec.
    - apply run_single_encryption_fresh. }
  destruct H as (_ & d & Ht & Hn & Hd & Hb). exists d.
  split; [done |]. split; [by apply nonce_paired_before |]. by split.
Qed.

End Nonces.

(** ** Result files (lines 142-207) and the end of a run *)









Section Results.

Variables AESGCM ChaCha20Poly1305 : AEAD.
Variable format_f : nat -> float -> string.
Variable format_fQ : nat -> Q -> string.
Variable resolve : Path.t -> Path.t.
Variable raw_csv_bytes : list Metrics -> bytes.
Variable summary_csv_bytes : list (string * Metrics) -> bytes.
Variable chart_png : string -> list (string * Metrics) -> bytes.




(** X11. When every input path exists, the validation of [main]
    prints nothing and changes nothing: [main] is [benchmark] on the
    parsed paths, iteration count, output directory and retention flag,
    started after one existence check per input. *)
Theorem main_runs_benchmark (args : Args) (w : World) :
  let files := map Path.of_str (arg_files args) in
  Forall (fun p => is_Some (fs w !! Path.str p)) files ->
  main AESGCM ChaCha20Poly1305 format_f format_fQ resolve
       raw_csv_bytes summary_csv_bytes chart_png args w
  = benchmark AESGCM ChaCha20Poly1305 format_f format_fQ resolve
      raw_csv_bytes summary_csv_bytes chart_png
      files (arg_iters args) (Path.of_str (arg_outdir args))
      (arg_keep_outputs args) (stat_all files w)
  /\ fs (stat_all files w) = fs w
  /\ stdout (stat_all files w) = stdout w
  /\ drawn (stat_all files w) = drawn w
  /\ trace (stat_all files w) = trace w ++ map (fun p => EvStat (Path.str p)) files.
Proof.
  intros files Hall.
  assert (Hnone : missing_in (fs w) files = []).
  { unfold missing_in. induction Hall as [| p ps Hp _ IH]; [done |].
    cbn [List.filter]. unfold absent at 1.
    rewrite (bool_decide_eq_true_2 _ Hp). exact IH. }
  split.
  - unfold main. fold files. unfold bind at 1.
    rewrite missing_of_unfold, Hnone. reflexivity.
  - rewrite stat_all_eq. by wproj.
Qed.

End Results.

(** ** The paths a run hands to the file system *)



Section Scope.

Variables AESGCM ChaCha20Poly1305 : AEAD.
Variable format_f : nat -> float -> string.
Variable format_fQ : nat -> Q -> string.
Variable resolve : Path.t -> Path.t.
Variable raw_csv_bytes : list Metrics -> bytes.
Variable summary_csv_bytes : list (string * Metrics) -> bytes.
Variable chart_png : string -> list (string * Metrics) -> bytes.

Variables (files : list Path.t) (outdir : Path.t).






End Scope.

(** ** When a trial yields a row *)

Section TrialSuccess.

Variables AESGCM ChaCha20Poly1305 : AEAD.


End TrialSuccess.

(** * Concrete runs

    The reference instance satisfies what the adapters assume of a
    primitive, and the program runs on the reference world. *)

Lemma demo_tag_length (key nonce : bytes) :
  length key = 32 -> length nonce = 12 -> length (Demo.tag key nonce) = 16.
Proof.
  intros Hk Hn. unfold Demo.tag.
  rewrite length_take, !length_app, !length_take, length_replicate. lia.
Qed.

Lemma demo_accepts : accepts_256_bit_keys Demo.aead.
Proof. intros key Hk. cbn. by rewrite Hk. Qed.

Lemma demo_sound : aead_sound Demo.aead.
Proof.
  intros key nonce data Hk Hn. cbn. unfold Demo.seal, Demo.unseal.
  rewrite Hn. cbn [Nat.eqb negb]. eexists. split; [reflexivity |].
  pose proof (demo_tag_length key nonce Hk Hn) as Htag.
  rewrite length_app, Htag.
  destruct (Nat.ltb_spec (length data + 16) 16) as [? | _]; [lia |].
  replace (length data + 16 - 16) with (length data) by lia.
  rewrite drop_app_length, take_app_length.
  by rewrite bool_decide_eq_true_2.
Qed.

Lemma adapter_roundtrip_witness :
  length demo_key = 32
  /\ accepts_256_bit_keys (primitive Demo.aead Demo.aead AES_GCM)
  /\ aead_sound (primitive Demo.aead Demo.aead AES_GCM)
  /\ exists out,
       (adapter Demo.aead Demo.aead AES_GCM demo_key demo_plaintext Demo.world).1
       = Ok out
       /\ decrypt (primitive Demo.aead Demo.aead AES_GCM) demo_key
                  (take 12 out) (drop 12 out) None
          = Returns demo_plaintext.
Proof.
  split; [reflexivity |]. split; [exact demo_accepts |].
  split; [exact demo_sound |].
  apply adapter_roundtrip; [reflexivity | exact demo_accepts | exact demo_sound].
Defined.

Lemma adapter_output_witness :
  length demo_key = 32
  /\ accepts_256_bit_keys (primitive Demo.aead Demo.aead CHACHA20_POLY1305)
  /\ (adapter Demo.aead Demo.aead CHACHA20_POLY1305 demo_key demo_plaintext
              Demo.world).1
     = Ok (next_random Demo.world 12 ++ demo_plaintext
           ++ Demo.tag demo_key (next_random Demo.world 12)).
Proof.
  split; [reflexivity |]. split; [exact demo_accepts |].
  pose proof (adapter_output Demo.aead Demo.aead CHACHA20_POLY1305 demo_key
                demo_plaintext Demo.world eq_refl demo_accepts) as H.
  cbv zeta in H.
  destruct (adapter Demo.aead Demo.aead CHACHA20_POLY1305 demo_key demo_plaintext
                    Demo.world) as [r w'].
  destruct H as (_ & -> & _). reflexivity.
Defined.

Lemma trial_record_times_witness :
  Demo.run_single demo_file "AES-GCM" demo_key (Path.of_str ".") Demo.world
  = (Ok (metrics_of demo_file "AES-GCM" (Path.of_str ".") Demo.world
           [Byte.x61; Byte.x62; Byte.x63]),
     (Demo.run_single demo_file "AES-GCM" demo_key (Path.of_str ".") Demo.world).2)
  /\ wall_time_sec (metrics_of demo_file "AES-GCM" (Path.of_str ".") Demo.world
                      [Byte.x61; Byte.x62; Byte.x63]) = 20%float
  /\ cpu_time_sec (metrics_of demo_file "AES-GCM" (Path.of_str ".") Demo.world
                     [Byte.x61; Byte.x62; Byte.x63]) = 3%float.
Proof.
  assert (H : Demo.run_single demo_file "AES-GCM" demo_key (Path.of_str ".") Demo.world
              = (Ok (metrics_of demo_file "AES-GCM" (Path.of_str ".") Demo.world
                       [Byte.x61; Byte.x62; Byte.x63]),
                 (Demo.run_single demo_file "AES-GCM" demo_key (Path.of_str ".")
                                  Demo.world).2))
    by (vm_compute; reflexivity).
  split; [exact H |].
  destruct (trial_record_times Demo.aead Demo.aead demo_file "AES-GCM" demo_key
              (Path.of_str ".") Demo.world _ _ H) as (Hw & Hc & _).
  split; [rewrite Hw | rewrite Hc]; vm_compute; reflexivity.
Defined.

Lemma unsupported_cipher_witness :
  "DES" <> "AES-GCM"
  /\ "DES" <> "ChaCha20-Poly1305"
  /\ (Demo.run_single demo_file "DES" demo_key demo_outdir Demo.world).1
     = Raise (ValueError "Unsupported cipher")
  /\ fs (Demo.run_single demo_file "DES" demo_key demo_outdir Demo.world).2
     = fs Demo.world.
Proof.
  split; [discriminate |]. split; [discriminate |].
  pose proof (unsupported_cipher Demo.aead Demo.aead demo_file "DES" demo_key
                demo_outdir Demo.world ltac:(discriminate) ltac:(discriminate)) as H.
  unfold Demo.run_single.
  destruct (run_single_encryption Demo.aead Demo.aead demo_file "DES" demo_key
                                  demo_outdir Demo.world) as [r w'].
  destruct H as (_ & Hfs & Hv).
  destruct (Hv [Byte.x61; Byte.x62; Byte.x63] eq_refl) as [-> _].
  split; [reflexivity | exact Hfs].
Defined.




Lemma trial_output_decrypts_witness :
  algo_of "AES-GCM" = Some AES_GCM
  /\ length demo_key = 32
  /\ exists plaintext ct,
       fs Demo.world !! Path.str demo_file = Some (File plaintext)
       /\ fs (Demo.run_single demo_file "AES-GCM" demo_key (Path.of_str ".")
                Demo.world).2
            !! output_file (metrics_of demo_file "AES-GCM" (Path.of_str ".")
                              Demo.world [Byte.x61; Byte.x62; Byte.x63])
          = Some (File ct)
       /\ decrypt Demo.aead demo_key (take 12 ct) (drop 12 ct) None
          = Returns plaintext
       /\ bytes_processed (metrics_of demo_file "AES-GCM" (Path.of_str ".")
                             Demo.world [Byte.x61; Byte.x62; Byte.x63])
          = Z.of_nat (length plaintext)
       /\ filesize_bytes (metrics_of demo_file "AES-GCM" (Path.of_str ".")
                            Demo.world [Byte.x61; Byte.x62; Byte.x63])
          = st_size_at (oracle Demo.world) (Path.str demo_file) (File plaintext).
Proof.
  assert (H : Demo.run_single demo_file "AES-GCM" demo_key (Path.of_str ".") Demo.world
              = (Ok (metrics_of demo_file "AES-GCM" (Path.of_str ".") Demo.world
                       [Byte.x61; Byte.x62; Byte.x63]),
                 (Demo.run_single demo_file "AES-GCM" demo_key (Path.of_str ".")
                                  Demo.world).2))
    by (vm_compute; reflexivity).
  split; [reflexivity |]. split; [reflexivity |].
  exact (trial_output_decrypts Demo.aead Demo.aead demo_file "AES-GCM" demo_key
           (Path.of_str ".") Demo.world
           (Demo.run_single demo_file "AES-GCM" demo_key (Path.of_str ".")
                            Demo.world).2
           (metrics_of demo_file "AES-GCM" (Path.of_str ".") Demo.world
              [Byte.x61; Byte.x62; Byte.x63])
           AES_GCM H eq_refl eq_refl demo_sound).
Defined.



Lemma main_runs_benchmark_witness :
  Forall (fun p => is_Some (fs Demo.world !! Path.str p)) [demo_file]
  /\ Demo.run_main (mkArgs ["f.bin"] 2 "out" false) Demo.world
     = Demo.bench [demo_file] 2 demo_outdir false (stat_all [demo_file] Demo.world).
Proof.
  assert (H : Forall (fun p => is_Some (fs Demo.world !! Path.str p)) [demo_file]).
  { constructor; [| constructor]. vm_compute. eexists. reflexivity. }
  split; [exact H |].
  exact (proj1 (main_runs_benchmark Demo.aead Demo.aead Demo.fmt Demo.fmtQ
                  (fun p => p) Demo.csv Demo.csv2 Demo.png
                  (mkArgs ["f.bin"] 2 "out" false) Demo.world H)).
Defined.


